(** * A todo request handler: the dispatcher of [src/handler.ts]

    The handler is one asynchronous function, [main], that turns an API
    Gateway event into a response.  It talks to a key-value store
    ([dynamoDb]), to a metrics sink ([cloudWatch]), to an identifier
    generator ([uuidv4]), to the clock ([new Date()]) and to the console.

    The embedding follows the code line by line: JavaScript values are an
    inductive type, thrown errors are the left summand of a sum, and the
    collaborators are the methods of a type class over an abstract world,
    so that every theorem holds for every behaviour of the store, the
    sink, the clock and the identifier generator.  Each run records the
    calls it made, with the replies it got, in a trace.

    Two conventions: what is thrown is an [Error] object (the runtime
    and the SDK throw nothing else), and [await] is sequencing, since a
    request is handled by one chain of calls with no other work between
    them. *)

From Stdlib Require Import String Ascii List ZArith Bool Lia DecimalString.
Import ListNotations.
Local Open Scope list_scope.
Local Open Scope string_scope.

Set Implicit Arguments.
Set Warnings "-register-all".

(* ===================================================================== *)
(** ** JavaScript values *)
(* ===================================================================== *)

Module JS.

(** The values that flow through the handler: what [JSON.parse] returns,
    what the document client returns, and [undefined].  Numbers are the
    integers that print in plain decimal (the handler never computes
    with a number: only truthiness and serialisation matter); the
    property list of [JObj] is in property enumeration order. *)
Inductive JValue : Type :=
| JUndefined
| JNull
| JBool (b : bool)
| JNum (n : Z)
| JStr (s : string)
| JArr (elems : list JValue)
| JObj (props : list (string * JValue)).

(** An [Error] object, as the runtime and the SDK throw them. *)
Record JsError : Type := mkError
  { name : string;
    message : string;
    stack : option string }.

(** ToBoolean. *)
Definition truthy (v : JValue) : bool :=
  match v with
  | JUndefined | JNull => false
  | JBool b => b
  | JNum n => negb (n =? 0)%Z
  | JStr s => negb (s =? EmptyString)
  | JArr _ | JObj _ => true
  end.

(** [a || b]. *)
Definition js_or (a b : JValue) : JValue := if truthy a then a else b.

(** [v !== undefined]. *)
Definition defined (v : JValue) : bool :=
  match v with JUndefined => false | _ => true end.

Fixpoint assoc {A : Type} (k : string) (l : list (string * A)) : option A :=
  match l with
  | [] => None
  | (k', v) :: l' => if k' =? k then Some v else assoc k l'
  end.

(** [o[k] = v] on a property list: an existing property keeps its place,
    a new one goes last. *)
Fixpoint set_prop (k : string) (v : JValue) (l : list (string * JValue))
  : list (string * JValue) :=
  match l with
  | [] => [(k, v)]
  | (k', v') :: l' =>
      if k' =? k then (k, v) :: l' else (k', v') :: set_prop k v l'
  end.

Definition TypeError (msg : string) : JsError :=
  mkError "TypeError" msg None.

(** [v.k], for a property name [k] that no prototype defines (the handler
    reads [title], [description] and [completed]): reading a property of
    [null] or [undefined] throws, a missing property is [undefined]. *)
Definition get_prop (v : JValue) (k : string) : JsError + JValue :=
  match v with
  | JUndefined =>
      inl (TypeError "Cannot read properties of undefined")
  | JNull => inl (TypeError "Cannot read properties of null")
  | JObj props =>
      inr (match assoc k props with Some x => x | None => JUndefined end)
  | _ => inr JUndefined
  end.

(** [v?.length]. *)
Definition opt_length (v : JValue) : JValue :=
  match v with
  | JArr l => JNum (Z.of_nat (List.length l))
  | JStr s => JNum (Z.of_nat (String.length s))
  | JObj props =>
      match assoc "length" props with Some x => x | None => JUndefined end
  | _ => JUndefined
  end.

(** *** JSON.stringify *)

Definition dquote : ascii := "034"%char.
Definition backslash : ascii := "092"%char.

Definition hex_digit (n : nat) : ascii :=
  match n with
  | 0 => "0" | 1 => "1" | 2 => "2" | 3 => "3" | 4 => "4" | 5 => "5"
  | 6 => "6" | 7 => "7" | 8 => "8" | 9 => "9" | 10 => "a" | 11 => "b"
  | 12 => "c" | 13 => "d" | 14 => "e" | _ => "f"
  end%char.

Definition escape_char (c : ascii) : string :=
  let n := nat_of_ascii c in
  if (n =? 34)%nat then String backslash (String dquote EmptyString)
  else if (n =? 92)%nat then String backslash (String backslash EmptyString)
  else if (n =? 8)%nat then String backslash "b"
  else if (n =? 9)%nat then String backslash "t"
  else if (n =? 10)%nat then String backslash "n"
  else if (n =? 12)%nat then String backslash "f"
  else if (n =? 13)%nat then String backslash "r"
  else if (n <? 32)%nat then
    String backslash
      ("u00" ++ String (hex_digit (n / 16))
                 (String (hex_digit (n mod 16)) EmptyString))
  else String c EmptyString.

Fixpoint escape (s : string) : string :=
  match s with
  | EmptyString => EmptyString
  | String c s' => escape_char c ++ escape s'
  end.

(** QuoteJSONString. *)
Definition quote (s : string) : string :=
  String dquote (escape s ++ String dquote EmptyString).

Definition number_to_string (n : Z) : string :=
  NilZero.string_of_int (Z.to_int n).

(** [JSON.stringify(v)]: [None] is [undefined].  A property whose value
    is [undefined] is left out, an [undefined] element of an array is
    written [null]. *)
Fixpoint JSON_stringify (v : JValue) : option string :=
  match v with
  | JUndefined => None
  | JNull => Some "null"
  | JBool b => Some (if b then "true" else "false")
  | JNum n => Some (number_to_string n)
  | JStr s => Some (quote s)
  | JArr elems =>
      Some ("[" ++ String.concat ","
                     (map (fun x => match JSON_stringify x with
                                    | Some s => s
                                    | None => "null"
                                    end) elems) ++ "]")
  | JObj props =>
      Some ("{" ++ String.concat ","
                     (flat_map (fun kv => match JSON_stringify (snd kv) with
                                          | Some s =>
                                              [quote (fst kv) ++ ":" ++ s]
                                          | None => []
                                          end) props) ++ "}")
  end.

End JS.
Import JS.

(* ===================================================================== *)
(** ** The collaborators *)
(* ===================================================================== *)

(** The commands the handler builds for the document client, with the
    fields it sets. *)
Inductive Command : Type :=
| PutCommand (TableName : string) (Item : JValue)
| GetCommand (TableName : string) (Key : JValue)
| ScanCommand (TableName : string)
| UpdateCommand (TableName : string) (Key : JValue)
    (UpdateExpression : string)
    (ExpressionAttributeValues : JValue)
    (ExpressionAttributeNames : JValue)
    (ReturnValues : string)
| DeleteCommand (TableName : string) (Key : JValue)
    (ConditionExpression : string).

(** What [dynamoDb.send] resolves to; the handler reads [Item], [Items]
    and [Attributes], each [undefined] when the store leaves it out. *)
Record SendOutput : Type := mkOutput
  { Item : JValue;
    Items : JValue;
    Attributes : JValue }.

Record MetricDatum : Type := mkDatum
  { MetricName : string;
    Value : Z;
    Unit : string;
    Timestamp : string }.

Record PutMetricDataCommand : Type := mkPutMetricData
  { Namespace : string;
    MetricData : list MetricDatum }.

(** One entry of the trace of a run: a call and the reply it got. *)
Inductive Call : Type :=
| DynamoSend (cmd : Command) (reply : JsError + SendOutput)
| CloudWatchSend (cmd : PutMetricDataCommand) (reply : JsError + unit)
| ConsoleLog (line : string).

(** The module-level handles of the handler and the built-ins it calls,
    over a world [W] that holds whatever state they have.  [Date_now] is
    [new Date()], read as its ISO-8601 text; [JSON_parse] is
    [JSON.parse], [inl] being the [SyntaxError] it throws. *)
Class Runtime (W : Type) : Type :=
  { TABLE_NAME : string;
    JSON_parse : string -> JsError + JValue;
    uuidv4 : W -> string * W;
    Date_now : W -> string * W;
    dynamoDb_send : Command -> W -> (JsError + SendOutput) * W;
    cloudWatch_send : PutMetricDataCommand -> W -> (JsError + unit) * W }.

(* ===================================================================== *)
(** ** The monad of the handler: state, trace and exceptions *)
(* ===================================================================== *)

Record St (W : Type) : Type := mkSt
  { world : W;
    calls : list Call }.

Definition M (W A : Type) : Type := St W -> (JsError + A) * St W.

Definition ret {W A : Type} (a : A) : M W A := fun s => (inr a, s).

Definition throw {W A : Type} (e : JsError) : M W A := fun s => (inl e, s).

Definition bind {W A B : Type} (m : M W A) (k : A -> M W B) : M W B :=
  fun s =>
    match m s with
    | (inr a, s') => k a s'
    | (inl e, s') => (inl e, s')
    end.

(** [try { m } catch (error) { h error }]. *)
Definition try_catch {W A : Type} (m : M W A) (h : JsError -> M W A)
  : M W A :=
  fun s =>
    match m s with
    | (inr a, s') => (inr a, s')
    | (inl e, s') => h e s'
    end.

(** A value that an expression either yields or throws. *)
Definition lift {W A : Type} (r : JsError + A) : M W A := fun s => (r, s).

Declare Scope js_scope.
Delimit Scope js_scope with js.
Notation "x <- m ;; k" := (bind m (fun x => k))
  (at level 100, m at next level, right associativity) : js_scope.
Notation "m ;; k" := (bind m (fun _ => k))
  (at level 100, right associativity) : js_scope.
Local Open Scope js_scope.

Section Primitives.
Context {W : Type} {RT : Runtime W}.

Definition record (c : Call) (w : W) (s : St W) : St W :=
  mkSt w (calls s ++ [c])%list.

(** [uuidv4()]. *)
Definition uuid : M W string :=
  fun s => let (id, w) := uuidv4 (world s) in (inr id, mkSt w (calls s)).

(** [new Date().toISOString()]. *)
Definition now : M W string :=
  fun s => let (t, w) := Date_now (world s) in (inr t, mkSt w (calls s)).

(** [await dynamoDb.send(cmd)]. *)
Definition send (cmd : Command) : M W SendOutput :=
  fun s =>
    let (r, w) := dynamoDb_send cmd (world s) in
    (r, record (DynamoSend cmd r) w s).

(** [await cloudWatch.send(cmd)]. *)
Definition send_metric (cmd : PutMetricDataCommand) : M W unit :=
  fun s =>
    let (r, w) := cloudWatch_send cmd (world s) in
    (r, record (CloudWatchSend cmd r) w s).

(** [console.log(line)]; [console.log(undefined)] prints the word. *)
Definition console_log (line : option string) : M W unit :=
  fun s =>
    let text := match line with Some l => l | None => "undefined" end in
    (inr tt, record (ConsoleLog text) (world s) s).

(** [JSON.parse(text)]. *)
Definition parse (text : string) : M W JValue := lift (JSON_parse text).

(** [v.k]. *)
Definition prop (v : JValue) (k : string) : M W JValue :=
  lift (get_prop v k).

End Primitives.

(* ===================================================================== *)
(** ** The handler, [src/handler.ts] *)
(* ===================================================================== *)

(** The fields of [APIGatewayProxyEvent] that the handler reads. *)
Record APIGatewayProxyEvent : Type := mkEvent
  { httpMethod : string;
    path : string;
    body : option string;
    pathParameters : option (list (string * string)) }.

(** [APIGatewayProxyResult]; [resultBody] is its [body], [None] when
    [JSON.stringify] gave [undefined]. *)
Record APIGatewayProxyResult : Type := mkResult
  { statusCode : Z;
    headers : list (string * string);
    resultBody : option string }.

(** [interface Todo].  The body of a request is untyped, so [title] and
    [description] hold whatever value the body had. *)
Record Todo : Type := mkTodo
  { todoId : string;
    title : JValue;
    description : JValue;
    completed : bool;
    createdAt : string;
    updatedAt : string }.

(** The object literal of a [Todo], properties in the order of the
    literal in [createTodo]. *)
Definition todo_value (t : Todo) : JValue :=
  JObj [("todoId", JStr (todoId t));
        ("title", title t);
        ("description", description t);
        ("completed", JBool (completed t));
        ("createdAt", JStr (createdAt t));
        ("updatedAt", JStr (updatedAt t))].

Definition createResponse (status : Z) (body : JValue)
  : APIGatewayProxyResult :=
  {| statusCode := status;
     headers := [("Content-Type", "application/json");
                 ("Access-Control-Allow-Origin", "*");
                 ("Access-Control-Allow-Methods",
                  "GET,POST,PUT,DELETE,OPTIONS")];
     resultBody := JSON_stringify body |}.

(** [{ error: msg }]. *)
Definition error_body (msg : string) : JValue := JObj [("error", JStr msg)].

(** [event.body || '{}']. *)
Definition body_text (event : APIGatewayProxyEvent) : string :=
  match body event with
  | Some s => if s =? EmptyString then "{}" else s
  | None => "{}"
  end.

(** [event.pathParameters?.id]. *)
Definition path_id (event : APIGatewayProxyEvent) : JValue :=
  match pathParameters event with
  | Some params =>
      match assoc "id" params with
      | Some s => JStr s
      | None => JUndefined
      end
  | None => JUndefined
  end.

Definition opt_str (o : option string) : JValue :=
  match o with Some s => JStr s | None => JUndefined end.

(** The three accumulators of [updateTodo]. *)
Record UpdateParts : Type := mkParts
  { updateExpression : list string;
    expressionAttributeValues : list (string * JValue);
    expressionAttributeNames : list (string * JValue) }.

(** Lines 145 to 163 of [updateTodo]: one clause for each field of the
    body that is not [undefined]. *)
Definition update_parts (btitle bdescription bcompleted : JValue)
  : UpdateParts :=
  let p0 := mkParts [] [] [] in
  let p1 :=
    if defined btitle then
      mkParts (updateExpression p0 ++ ["#title = :title"])%list
              (set_prop ":title" btitle (expressionAttributeValues p0))
              (set_prop "#title" (JStr "title") (expressionAttributeNames p0))
    else p0 in
  let p2 :=
    if defined bdescription then
      mkParts (updateExpression p1 ++ ["description = :description"])%list
              (set_prop ":description" bdescription
                 (expressionAttributeValues p1))
              (expressionAttributeNames p1)
    else p1 in
  if defined bcompleted then
    mkParts (updateExpression p2 ++ ["completed = :completed"])%list
            (set_prop ":completed" bcompleted (expressionAttributeValues p2))
            (expressionAttributeNames p2)
  else p2.

(** [logEntry] of [log]: [...(data && { data })] adds the property when
    [data] is truthy. *)
Definition logEntry (timestamp level msg : string) (data : JValue) : JValue :=
  JObj ([("timestamp", JStr timestamp);
         ("level", JStr level);
         ("message", JStr msg)]
        ++ (if truthy data then [("data", data)] else []))%list.

Section Handler.
Context {W : Type} {RT : Runtime W}.

(** Structured logging: the entry reads the clock, and carries [data]
    when it is truthy. *)
Definition log (level msg : string) (data : JValue) : M W unit :=
  timestamp <- now ;;
  console_log (JSON_stringify (logEntry timestamp level msg data)).

(** Custom metric: a failure of the sink is logged and goes no further. *)
Definition putMetric (metricName : string) (value : Z) : M W unit :=
  try_catch
    (timestamp <- now ;;
     send_metric
       {| Namespace := "TodoApp";
          MetricData := [ {| MetricName := metricName;
                             Value := value;
                             Unit := "Count";
                             Timestamp := timestamp |} ] |})
    (fun error =>
       log "error" "Failed to put metric"
         (JObj [("error", JStr (message error))])).

Definition createTodo (event : APIGatewayProxyEvent)
  : M W APIGatewayProxyResult :=
  body <- parse (body_text event) ;;
  btitle <- prop body "title" ;;
  if negb (truthy btitle) then
    ret (createResponse 400 (error_body "Title is required"))
  else
    id <- uuid ;;
    bdescription <- prop body "description" ;;
    created <- now ;;
    updated <- now ;;
    let todo :=
      {| todoId := id;
         title := btitle;
         description := js_or bdescription (JStr EmptyString);
         completed := false;
         createdAt := created;
         updatedAt := updated |} in
    send (PutCommand TABLE_NAME (todo_value todo)) ;;
    putMetric "TodoCreatedCount" 1 ;;
    log "info" "Todo created" (JObj [("todoId", JStr (todoId todo))]) ;;
    ret (createResponse 201 (todo_value todo)).

Definition getTodo (todoId : JValue) : M W APIGatewayProxyResult :=
  result <- send (GetCommand TABLE_NAME (JObj [("todoId", todoId)])) ;;
  if negb (truthy (Item result)) then
    ret (createResponse 404 (error_body "Todo not found"))
  else
    log "info" "Todo retrieved" (JObj [("todoId", todoId)]) ;;
    ret (createResponse 200 (Item result)).

Definition listTodos : M W APIGatewayProxyResult :=
  result <- send (ScanCommand TABLE_NAME) ;;
  log "info" "Todos listed"
    (JObj [("count", js_or (opt_length (Items result)) (JNum 0))]) ;;
  ret (createResponse 200
         (JObj [("todos", js_or (Items result) (JArr []))])).

(** The [UpdateCommand] of [updateTodo], lines 169 to 180: the clause
    and the value of [updatedAt] come after those of the body. *)
Definition update_command (todoId : JValue) (parts : UpdateParts)
  (updated : string) : Command :=
  let clauses :=
    (updateExpression parts ++ ["updatedAt = :updatedAt"])%list in
  let values :=
    set_prop ":updatedAt" (JStr updated)
      (expressionAttributeValues parts) in
  UpdateCommand TABLE_NAME (JObj [("todoId", todoId)])
    ("SET " ++ String.concat ", " clauses)
    (JObj values)
    (if (0 <? List.length (expressionAttributeNames parts))%nat
     then JObj (expressionAttributeNames parts)
     else JUndefined)
    "ALL_NEW".

Definition updateTodo (todoId : JValue) (event : APIGatewayProxyEvent)
  : M W APIGatewayProxyResult :=
  body <- parse (body_text event) ;;
  btitle <- prop body "title" ;;
  bdescription <- prop body "description" ;;
  bcompleted <- prop body "completed" ;;
  let parts := update_parts btitle bdescription bcompleted in
  if (List.length (updateExpression parts) =? 0)%nat then
    ret (createResponse 400 (error_body "No valid fields to update"))
  else
    updated <- now ;;
    try_catch
      (result <- send (update_command todoId parts updated) ;;
       log "info" "Todo updated" (JObj [("todoId", todoId)]) ;;
       ret (createResponse 200 (Attributes result)))
      (fun error =>
         if name error =? "ValidationException" then
           ret (createResponse 404 (error_body "Todo not found"))
         else throw error).

Definition deleteTodo (todoId : JValue) : M W APIGatewayProxyResult :=
  try_catch
    (send (DeleteCommand TABLE_NAME (JObj [("todoId", todoId)])
             "attribute_exists(todoId)") ;;
     log "info" "Todo deleted" (JObj [("todoId", todoId)]) ;;
     ret (createResponse 204 (JObj [])))
    (fun error =>
       if name error =? "ConditionalCheckFailedException" then
         ret (createResponse 404 (error_body "Todo not found"))
       else throw error).

(** The [switch] of [main], the body of its [try]. *)
Definition route (event : APIGatewayProxyEvent)
  : M W APIGatewayProxyResult :=
  let method := httpMethod event in
  let todoId := path_id event in
  if method =? "POST" then createTodo event
  else if method =? "GET" then
    (if truthy todoId then getTodo todoId else listTodos)
  else if method =? "PUT" then updateTodo todoId event
  else if method =? "DELETE" then deleteTodo todoId
  else ret (createResponse 405 (error_body "Method not allowed")).

Definition main (event : APIGatewayProxyEvent)
  : M W APIGatewayProxyResult :=
  log "info" "Request received"
    (JObj [("method", JStr (httpMethod event));
           ("path", JStr (path event));
           ("todoId", path_id event)]) ;;
  try_catch
    (route event)
    (fun error =>
       log "error" "Request failed"
         (JObj [("error", JStr (message error));
                ("stack", opt_str (stack error))]) ;;
       ret (createResponse 500 (error_body "Internal server error"))).

(** A request handled in world [w], from an empty trace. *)
Definition handle (event : APIGatewayProxyEvent) (w : W)
  : (JsError + APIGatewayProxyResult) * St W :=
  main event (mkSt w []).

End Handler.

(* ===================================================================== *)
(** ** What the store does with an update request *)
(* ===================================================================== *)

Module Store.

(** [split sep s], for a separator of at least one character: the pieces
    of [s] between the occurrences of [sep].  [skip] counts the
    characters of a separator that are still to be dropped. *)
Fixpoint split_from (sep : string) (skip : nat) (s : string) : list string :=
  match s with
  | EmptyString => [EmptyString]
  | String c s' =>
      match skip with
      | S k => split_from sep k s'
      | O =>
          if prefix sep s then
            EmptyString :: split_from sep (String.length sep - 1) s'
          else
            match split_from sep 0 s' with
            | piece :: pieces => String c piece :: pieces
            | [] => [String c EmptyString]
            end
      end
  end.

Definition split (sep s : string) : list string := split_from sep 0 s.

Definition strip_prefix (p s : string) : option string :=
  if prefix p s
  then Some (substring (String.length p) (String.length s - String.length p) s)
  else None.

(** One clause [path = :value] of a [SET] action: the attribute it
    assigns (through [ExpressionAttributeNames] when it is written
    [#name]) and the value it assigns to it. *)
Definition clause_assignment (names values : list (string * JValue))
  (clause : string) : option (string * JValue) :=
  match split " = " clause with
  | [lhs; rhs] =>
      let attribute :=
        if prefix "#" lhs then
          match assoc lhs names with
          | Some (JStr a) => Some a
          | _ => None
          end
        else Some lhs in
      match attribute, assoc rhs values with
      | Some a, Some v => Some (a, v)
      | _, _ => None
      end
  | _ => None
  end.

Fixpoint sequence {A : Type} (l : list (option A)) : option (list A) :=
  match l with
  | [] => Some []
  | Some a :: l' =>
      match sequence l' with Some r => Some (a :: r) | None => None end
  | None :: _ => None
  end.

Definition props_of (v : JValue) : list (string * JValue) :=
  match v with JObj props => props | _ => [] end.

(** Modelled from the spec: the store's [update(key, partialFields)]
    primitive is outside the repository.  An update request whose
    expression is [SET c1, c2, ...] assigns the attributes of its
    clauses, in order; [None] when the request is not of that form. *)
Definition assignments (cmd : Command) : option (list (string * JValue)) :=
  match cmd with
  | UpdateCommand _ _ expr values names _ =>
      match strip_prefix "SET " expr with
      | Some clauses =>
          sequence (map (clause_assignment (props_of names) (props_of values))
                      (split ", " clauses))
      | None => None
      end
  | _ => None
  end.

(** Modelled from the spec: the image of an item after its assignments
    (what [ReturnValues: 'ALL_NEW'] asks for).  Each assigned attribute
    takes its new value, every other attribute is left as it was. *)
Definition assign (item : list (string * JValue))
  (sets : list (string * JValue)) : list (string * JValue) :=
  fold_left (fun it kv => set_prop (fst kv) (snd kv) it) sets item.

Definition all_new (cmd : Command) (item : JValue) : option JValue :=
  match assignments cmd with
  | Some sets => Some (JObj (assign (props_of item) sets))
  | None => None
  end.

End Store.

(* ===================================================================== *)
(** ** A test double of the collaborators, after [test/handler.test.ts] *)
(* ===================================================================== *)

Module Mock.

(** *** A reader for the JSON texts of the examples

    Objects, arrays, strings with the two-character escapes, integers,
    [true], [false] and [null].  The theorems on the handler are proved
    for every [JSON_parse]; this one only feeds the examples. *)

Definition is_ws (c : ascii) : bool :=
  let n := nat_of_ascii c in
  ((n =? 32) || (n =? 9) || (n =? 10) || (n =? 13))%nat.

Fixpoint skip_ws (s : string) : string :=
  match s with
  | String c s' => if is_ws c then skip_ws s' else s
  | EmptyString => s
  end.

Definition unescape (c : ascii) : option ascii :=
  let n := nat_of_ascii c in
  if (n =? 34)%nat then Some dquote
  else if (n =? 92)%nat then Some backslash
  else if (n =? 47)%nat then Some "/"%char
  else if (n =? 98)%nat then Some "008"%char
  else if (n =? 116)%nat then Some "009"%char
  else if (n =? 110)%nat then Some "010"%char
  else if (n =? 102)%nat then Some "012"%char
  else if (n =? 114)%nat then Some "013"%char
  else None.

(** The rest of a string literal, after its opening quote. *)
Fixpoint read_chars (s : string) : option (string * string) :=
  match s with
  | EmptyString => None
  | String c s' =>
      if (nat_of_ascii c =? 34)%nat then Some (EmptyString, s')
      else if (nat_of_ascii c =? 92)%nat then
        match s' with
        | String e s'' =>
            match unescape e, read_chars s'' with
            | Some ch, Some (str, rest) => Some (String ch str, rest)
            | _, _ => None
            end
        | EmptyString => None
        end
      else if (nat_of_ascii c <? 32)%nat then None
      else
        match read_chars s' with
        | Some (str, rest) => Some (String c str, rest)
        | None => None
        end
  end.

Definition digit (c : ascii) : option Z :=
  let n := nat_of_ascii c in
  if ((48 <=? n) && (n <=? 57))%nat then Some (Z.of_nat (n - 48)) else None.

Fixpoint read_digits (acc : Z) (s : string) : Z * string :=
  match s with
  | String c s' =>
      match digit c with
      | Some d => read_digits (10 * acc + d) s'
      | None => (acc, s)
      end
  | EmptyString => (acc, s)
  end.

Definition read_number (s : string) : option (Z * string) :=
  let (negative, s1) :=
    match s with
    | String "-"%char s' => (true, s')
    | _ => (false, s)
    end in
  match s1 with
  | String c _ =>
      match digit c with
      | Some _ =>
          let (n, rest) := read_digits 0 s1 in
          match rest with
          | String "."%char _ | String "e"%char _ | String "E"%char _ => None
          | _ => Some (if negative then (- n)%Z else n, rest)
          end
      | None => None
      end
  | EmptyString => None
  end.

(** A member in front of the members that follow it: when the key comes
    again further on, the later value wins and the first place is kept. *)
Definition member (key : string) (v : JValue) (l : list (string * JValue))
  : list (string * JValue) :=
  match assoc key l with
  | Some v' =>
      (key, v') :: filter (fun kv => negb (fst kv =? key)) l
  | None => (key, v) :: l
  end.

Definition expect (word : string) (v : JValue) (s : string)
  : option (JValue * string) :=
  match Store.strip_prefix word s with
  | Some rest => Some (v, rest)
  | None => None
  end.

Fixpoint read_value (fuel : nat) (s : string) : option (JValue * string) :=
  match fuel with
  | O => None
  | S fuel' =>
      match skip_ws s with
      | String "n"%char _ => expect "null" JNull (skip_ws s)
      | String "t"%char _ => expect "true" (JBool true) (skip_ws s)
      | String "f"%char _ => expect "false" (JBool false) (skip_ws s)
      | String "["%char rest =>
          match skip_ws rest with
          | String "]"%char rest' => Some (JArr [], rest')
          | _ =>
              match read_elems fuel' rest with
              | Some (l, rest') => Some (JArr l, rest')
              | None => None
              end
          end
      | String "{"%char rest =>
          match skip_ws rest with
          | String "}"%char rest' => Some (JObj [], rest')
          | _ =>
              match read_members fuel' rest with
              | Some (l, rest') => Some (JObj l, rest')
              | None => None
              end
          end
      | String c rest =>
          if (nat_of_ascii c =? 34)%nat then
            match read_chars rest with
            | Some (str, rest') => Some (JStr str, rest')
            | None => None
            end
          else
            match read_number (skip_ws s) with
            | Some (n, rest') => Some (JNum n, rest')
            | None => None
            end
      | EmptyString => None
      end
  end
with read_elems (fuel : nat) (s : string)
  : option (list JValue * string) :=
  match fuel with
  | O => None
  | S fuel' =>
      match read_value fuel' s with
      | Some (v, rest) =>
          match skip_ws rest with
          | String ","%char rest' =>
              match read_elems fuel' rest' with
              | Some (l, rest'') => Some (v :: l, rest'')
              | None => None
              end
          | String "]"%char rest' => Some ([v], rest')
          | _ => None
          end
      | None => None
      end
  end
with read_members (fuel : nat) (s : string)
  : option (list (string * JValue) * string) :=
  match fuel with
  | O => None
  | S fuel' =>
      match skip_ws s with
      | String c rest =>
          if (nat_of_ascii c =? 34)%nat then
            match read_chars rest with
            | Some (key, rest1) =>
                match skip_ws rest1 with
                | String ":"%char rest2 =>
                    match read_value fuel' rest2 with
                    | Some (v, rest3) =>
                        match skip_ws rest3 with
                        | String ","%char rest4 =>
                            match read_members fuel' rest4 with
                            | Some (l, rest5) =>
                                Some (member key v l, rest5)
                            | None => None
                            end
                        | String "}"%char rest4 => Some ([(key, v)], rest4)
                        | _ => None
                        end
                    | None => None
                    end
                | _ => None
                end
            | None => None
            end
          else None
      | EmptyString => None
      end
  end.

Definition SyntaxError : JsError :=
  mkError "SyntaxError" "Unexpected token in JSON" None.

Definition read (s : string) : JsError + JValue :=
  match read_value (2 * String.length s + 2) s with
  | Some (v, rest) =>
      match skip_ws rest with
      | EmptyString => inr v
      | _ => inl SyntaxError
      end
  | None => inl SyntaxError
  end.

(** *** The doubles *)

(** [dynamo_reply] and [cloudwatch_reply] are what [mockResolvedValue]
    and [mockRejectedValue] install: the reply to every call.  The clock
    counts milliseconds and moves by [tick] at each reading; identifiers
    are numbered. *)
Record World : Type := mkWorld
  { dynamo_reply : JsError + SendOutput;
    cloudwatch_reply : JsError + unit;
    clock : nat;
    tick : nat;
    ids : nat }.

Definition decimal (n : nat) : string :=
  NilZero.string_of_uint (Nat.to_uint n).

Definition iso (ms : nat) : string :=
  "2024-01-01T00:00:"
  ++ decimal (ms / 1000 / 10 mod 6) ++ decimal (ms / 1000 mod 10) ++ "."
  ++ decimal (ms / 100 mod 10) ++ decimal (ms / 10 mod 10)
  ++ decimal (ms mod 10) ++ "Z".

#[export] Instance runtime : Runtime World :=
  {| TABLE_NAME := "test-todos-table";
     JSON_parse := read;
     uuidv4 := fun w =>
       ("id-" ++ decimal (ids w),
        mkWorld (dynamo_reply w) (cloudwatch_reply w) (clock w) (tick w)
          (S (ids w)));
     Date_now := fun w =>
       (iso (clock w),
        mkWorld (dynamo_reply w) (cloudwatch_reply w) (clock w + tick w)
          (tick w) (ids w));
     dynamoDb_send := fun _ w => (dynamo_reply w, w);
     cloudWatch_send := fun _ w => (cloudwatch_reply w, w) |}.

(** [createEvent] of the test file: the body is the text of a value. *)
Definition createEvent (method path : string) (body : option JValue)
  (pathParameters : option (list (string * string)))
  : APIGatewayProxyEvent :=
  {| httpMethod := method;
     path := path;
     body := match body with
             | Some v => if truthy v then JSON_stringify v else None
             | None => None
             end;
     pathParameters := pathParameters |}.

Definition resolved (out : SendOutput) : JsError + SendOutput := inr out.
Definition rejected (e : JsError) : JsError + SendOutput := inl e.

Definition empty_output : SendOutput :=
  mkOutput JUndefined JUndefined JUndefined.

End Mock.

(* ===================================================================== *)
(** ** Reading a trace *)
(* ===================================================================== *)

(** The calls made to the store, with their replies, in order. *)
Fixpoint dynamo_calls (tr : list Call)
  : list (Command * (JsError + SendOutput)) :=
  match tr with
  | [] => []
  | DynamoSend cmd reply :: tr' => (cmd, reply) :: dynamo_calls tr'
  | _ :: tr' => dynamo_calls tr'
  end.

(** The calls made to the metrics sink, with their replies, in order. *)
Fixpoint metric_calls (tr : list Call)
  : list (PutMetricDataCommand * (JsError + unit)) :=
  match tr with
  | [] => []
  | CloudWatchSend cmd reply :: tr' => (cmd, reply) :: metric_calls tr'
  | _ :: tr' => metric_calls tr'
  end.

(** The lines written to the console, in order. *)
Fixpoint console_lines (tr : list Call) : list string :=
  match tr with
  | [] => []
  | ConsoleLog line :: tr' => line :: console_lines tr'
  | _ :: tr' => console_lines tr'
  end.

(** The line that [log] writes for an entry stamped [timestamp]. *)
Definition log_line (timestamp level msg : string) (data : JValue) : string :=
  match JSON_stringify (logEntry timestamp level msg data) with
  | Some line => line
  | None => "undefined"
  end.

(** The headers of every response. *)
Definition response_headers : list (string * string) :=
  [("Content-Type", "application/json");
   ("Access-Control-Allow-Origin", "*");
   ("Access-Control-Allow-Methods", "GET,POST,PUT,DELETE,OPTIONS")].

(** The text of the object [{error: msg}], written out character by
    character. *)
Definition error_text (msg : string) : string :=
  "{" ++ String dquote ("error" ++ String dquote (":" ++ String dquote
    (escape msg ++ String dquote "}"))).

(** The create metric, stamped [timestamp]. *)
Definition created_metric (timestamp : string) : PutMetricDataCommand :=
  {| Namespace := "TodoApp";
     MetricData := [ {| MetricName := "TodoCreatedCount";
                        Value := 1;
                        Unit := "Count";
                        Timestamp := timestamp |} ] |}.

Definition internal_error : APIGatewayProxyResult :=
  createResponse 500 (error_body "Internal server error").

Definition not_found : APIGatewayProxyResult :=
  createResponse 404 (error_body "Todo not found").

(** The state in which the [try] of [main] starts: the request has been
    logged. *)
Definition entered {W : Type} {RT : Runtime W}
  (event : APIGatewayProxyEvent) (s : St W) : St W :=
  mkSt (snd (Date_now (world s)))
    (calls s ++ [ConsoleLog
                   (log_line (fst (Date_now (world s))) "info"
                      "Request received"
                      (JObj [("method", JStr (httpMethod event));
                             ("path", JStr (path event));
                             ("todoId", path_id event)]))]).

(** The assignments that a body asks for: one for each of the three
    fields that is not [undefined], in the order of the code. *)
Definition body_fields (btitle bdescription bcompleted : JValue)
  : list (string * JValue) :=
  ((if defined btitle then [("title", btitle)] else [])
   ++ (if defined bdescription then [("description", bdescription)] else [])
   ++ (if defined bcompleted then [("completed", bcompleted)] else []))%list.

(** The store errors that a handler turns into a 404. *)
Definition recognised (cmd : Command) (e : JsError) : bool :=
  match cmd with
  | UpdateCommand _ _ _ _ _ _ => name e =? "ValidationException"
  | DeleteCommand _ _ _ => name e =? "ConditionalCheckFailedException"
  | _ => false
  end.

(** A run that returns a response returns one with the headers. *)
Definition well_formed {W : Type}
  (r : (JsError + APIGatewayProxyResult) * St W) : Prop :=
  match r with
  | (inr resp, _) => headers resp = response_headers
  | (inl _, _) => True
  end.

(** In a run, a store call that failed with an error that no handler
    recognises made the run throw. *)
Definition store_error_thrown {W A : Type} (r : (JsError + A) * St W)
  : Prop :=
  forall cmd e,
    In (cmd, inl e) (dynamo_calls (calls (snd r))) ->
    recognised cmd e = false ->
    exists e', fst r = inl e'.

(* ===================================================================== *)
(** ** Requests and worlds of the examples *)
(* ===================================================================== *)

Module Examples.
Import Mock.

(** A store that accepts every call and a sink that works; the clock
    moves by one millisecond at each reading. *)
Definition world_ok : World :=
  mkWorld (resolved empty_output) (inr tt) 0 1 0.

(** The same, with the metrics sink down. *)
Definition sink_error : JsError :=
  mkError "ServiceUnavailable" "metrics sink is down" None.

Definition world_sink_down : World :=
  mkWorld (resolved empty_output) (inl sink_error) 0 1 0.

(** A store that finds no item to delete. *)
Definition condition_failed : JsError :=
  mkError "ConditionalCheckFailedException" "Conditional check failed" None.

Definition world_missing : World :=
  mkWorld (rejected condition_failed) (inr tt) 0 1 0.

(** A store that fails, as in the last test of the test file. *)
Definition database_error : JsError :=
  mkError "Error" "Database error" None.

Definition world_broken : World :=
  mkWorld (rejected database_error) (inr tt) 0 1 0.

Definition create_event : APIGatewayProxyEvent :=
  createEvent "POST" "/todos" (Some (JObj [("title", JStr "Test Todo")])) None.

(** A create request whose description is [false]. *)
Definition create_event_false_description : APIGatewayProxyEvent :=
  createEvent "POST" "/todos"
    (Some (JObj [("title", JStr "Test Todo"); ("description", JBool false)]))
    None.

Definition create_event_no_title : APIGatewayProxyEvent :=
  createEvent "POST" "/todos" (Some (JObj [])) None.

(** A create request whose body is not JSON. *)
Definition create_event_malformed : APIGatewayProxyEvent :=
  mkEvent "POST" "/todos" (Some "{title") None.

(** The item of [create_event] in [world_ok]. *)
Definition created_item : JValue :=
  JObj [("todoId", JStr "id-0");
        ("title", JStr "Test Todo");
        ("description", JStr EmptyString);
        ("completed", JBool false);
        ("createdAt", JStr "2024-01-01T00:00:00.001Z");
        ("updatedAt", JStr "2024-01-01T00:00:00.002Z")].

Definition list_event : APIGatewayProxyEvent :=
  createEvent "GET" "/todos" None None.

Definition two_todos : list JValue :=
  [JObj [("todoId", JStr "1"); ("title", JStr "Todo 1");
         ("completed", JBool false)];
   JObj [("todoId", JStr "2"); ("title", JStr "Todo 2");
         ("completed", JBool true)]].

Definition world_two_todos : World :=
  mkWorld (resolved (mkOutput JUndefined (JArr two_todos) JUndefined))
    (inr tt) 0 1 0.

Definition delete_event : APIGatewayProxyEvent :=
  createEvent "DELETE" "/todos/123" None (Some [("id", "123")]).

Definition delete_event_no_id : APIGatewayProxyEvent :=
  createEvent "DELETE" "/todos" None None.

(** An update that sets the title to the empty string and [completed] to
    [false], and leaves the description alone. *)
Definition update_event : APIGatewayProxyEvent :=
  createEvent "PUT" "/todos/123"
    (Some (JObj [("title", JStr EmptyString); ("completed", JBool false)]))
    (Some [("id", "123")]).

Definition update_event_no_field : APIGatewayProxyEvent :=
  createEvent "PUT" "/todos/123" (Some (JObj [])) (Some [("id", "123")]).

Definition update_event_no_id : APIGatewayProxyEvent :=
  createEvent "PUT" "/todos" (Some (JObj [("completed", JBool true)])) None.

Definition old_item : list (string * JValue) :=
  [("todoId", JStr "123");
   ("title", JStr "Old title");
   ("description", JStr "kept");
   ("completed", JBool true);
   ("createdAt", JStr "2023-12-31T00:00:00.000Z");
   ("updatedAt", JStr "2023-12-31T00:00:00.000Z")].

(** [old_item] after [update_event], with a clock that starts at 0: the
    request line takes the first reading, [updatedAt] the second. *)
Definition new_item : JValue :=
  JObj [("todoId", JStr "123");
        ("title", JStr EmptyString);
        ("description", JStr "kept");
        ("completed", JBool false);
        ("createdAt", JStr "2023-12-31T00:00:00.000Z");
        ("updatedAt", JStr "2024-01-01T00:00:00.001Z")].

Definition world_updated : World :=
  mkWorld (resolved (mkOutput JUndefined JUndefined new_item)) (inr tt) 0 1 0.

End Examples.

(* ===================================================================== *)
(** ** The outcomes of a request *)
(* ===================================================================== *)

(** [{ todoId }], the key of the commands. *)
Definition key_of (id : JValue) : JValue := JObj [("todoId", id)].

(** The item that [createTodo] builds from the title and the description
    of a body, an identifier and two readings of the clock. *)
Definition new_todo (id : string) (btitle bdescription : JValue)
  (created updated : string) : JValue :=
  todo_value (mkTodo id btitle (js_or bdescription (JStr EmptyString)) false
                created updated).

Section Outcomes.
Context {W : Type} {RT : Runtime W}.

(** The ways in which the [try] of [main] ends: what it returns or
    throws, the calls it made to the store and the calls it made to the
    metrics sink.  One constructor for each way through the code of
    [route] and of the five handlers. *)
Inductive Outcome (event : APIGatewayProxyEvent)
  : JsError + APIGatewayProxyResult ->
    list (Command * (JsError + SendOutput)) ->
    list (PutMetricDataCommand * (JsError + unit)) -> Prop :=
| O_unreadable e :
    httpMethod event = "POST" \/ httpMethod event = "PUT" ->
    JSON_parse (body_text event) = inl e ->
    Outcome event (inl e) [] []
| O_no_properties b e :
    httpMethod event = "POST" \/ httpMethod event = "PUT" ->
    JSON_parse (body_text event) = inr b ->
    get_prop b "title" = inl e ->
    Outcome event (inl e) [] []
| O_no_title b t :
    httpMethod event = "POST" ->
    JSON_parse (body_text event) = inr b ->
    get_prop b "title" = inr t ->
    truthy t = false ->
    Outcome event
      (inr (createResponse 400 (error_body "Title is required"))) [] []
| O_write_failed b t d id c u e :
    httpMethod event = "POST" ->
    JSON_parse (body_text event) = inr b ->
    get_prop b "title" = inr t ->
    truthy t = true ->
    get_prop b "description" = inr d ->
    Outcome event (inl e)
      [(PutCommand TABLE_NAME (new_todo id t d c u), inl e)] []
| O_created b t d id c u out tm mr :
    httpMethod event = "POST" ->
    JSON_parse (body_text event) = inr b ->
    get_prop b "title" = inr t ->
    truthy t = true ->
    get_prop b "description" = inr d ->
    Outcome event
      (inr (createResponse 201 (new_todo id t d c u)))
      [(PutCommand TABLE_NAME (new_todo id t d c u), inr out)]
      [(created_metric tm, mr)]
| O_read_failed e :
    httpMethod event = "GET" ->
    truthy (path_id event) = true ->
    Outcome event (inl e)
      [(GetCommand TABLE_NAME (key_of (path_id event)), inl e)] []
| O_read_missing out :
    httpMethod event = "GET" ->
    truthy (path_id event) = true ->
    truthy (Item out) = false ->
    Outcome event (inr not_found)
      [(GetCommand TABLE_NAME (key_of (path_id event)), inr out)] []
| O_read_found out :
    httpMethod event = "GET" ->
    truthy (path_id event) = true ->
    truthy (Item out) = true ->
    Outcome event (inr (createResponse 200 (Item out)))
      [(GetCommand TABLE_NAME (key_of (path_id event)), inr out)] []
| O_scan_failed e :
    httpMethod event = "GET" ->
    truthy (path_id event) = false ->
    Outcome event (inl e) [(ScanCommand TABLE_NAME, inl e)] []
| O_scanned out :
    httpMethod event = "GET" ->
    truthy (path_id event) = false ->
    Outcome event
      (inr (createResponse 200
              (JObj [("todos", js_or (Items out) (JArr []))])))
      [(ScanCommand TABLE_NAME, inr out)] []
| O_no_fields b vt vd vc :
    httpMethod event = "PUT" ->
    JSON_parse (body_text event) = inr b ->
    get_prop b "title" = inr vt ->
    get_prop b "description" = inr vd ->
    get_prop b "completed" = inr vc ->
    defined vt || defined vd || defined vc = false ->
    Outcome event
      (inr (createResponse 400 (error_body "No valid fields to update")))
      [] []
| O_update_failed b vt vd vc t e :
    httpMethod event = "PUT" ->
    JSON_parse (body_text event) = inr b ->
    get_prop b "title" = inr vt ->
    get_prop b "description" = inr vd ->
    get_prop b "completed" = inr vc ->
    defined vt || defined vd || defined vc = true ->
    (name e =? "ValidationException") = false ->
    Outcome event (inl e)
      [(update_command (path_id event) (update_parts vt vd vc) t, inl e)] []
| O_update_missing b vt vd vc t e :
    httpMethod event = "PUT" ->
    JSON_parse (body_text event) = inr b ->
    get_prop b "title" = inr vt ->
    get_prop b "description" = inr vd ->
    get_prop b "completed" = inr vc ->
    defined vt || defined vd || defined vc = true ->
    (name e =? "ValidationException") = true ->
    Outcome event (inr not_found)
      [(update_command (path_id event) (update_parts vt vd vc) t, inl e)] []
| O_updated b vt vd vc t out :
    httpMethod event = "PUT" ->
    JSON_parse (body_text event) = inr b ->
    get_prop b "title" = inr vt ->
    get_prop b "description" = inr vd ->
    get_prop b "completed" = inr vc ->
    defined vt || defined vd || defined vc = true ->
    Outcome event (inr (createResponse 200 (Attributes out)))
      [(update_command (path_id event) (update_parts vt vd vc) t, inr out)]
      []
| O_delete_failed e :
    httpMethod event = "DELETE" ->
    (name e =? "ConditionalCheckFailedException") = false ->
    Outcome event (inl e)
      [(DeleteCommand TABLE_NAME (key_of (path_id event))
          "attribute_exists(todoId)", inl e)] []
| O_delete_missing e :
    httpMethod event = "DELETE" ->
    (name e =? "ConditionalCheckFailedException") = true ->
    Outcome event (inr not_found)
      [(DeleteCommand TABLE_NAME (key_of (path_id event))
          "attribute_exists(todoId)", inl e)] []
| O_deleted out :
    httpMethod event = "DELETE" ->
    Outcome event (inr (createResponse 204 (JObj [])))
      [(DeleteCommand TABLE_NAME (key_of (path_id event))
          "attribute_exists(todoId)", inr out)] []
| O_not_allowed :
    httpMethod event <> "POST" ->
    httpMethod event <> "GET" ->
    httpMethod event <> "PUT" ->
    httpMethod event <> "DELETE" ->
    Outcome event
      (inr (createResponse 405 (error_body "Method not allowed"))) [] [].

(** What [main] makes of the end of its [try]. *)
Definition response_of (r : JsError + APIGatewayProxyResult)
  : APIGatewayProxyResult :=
  match r with
  | inr resp => resp
  | inl _ => internal_error
  end.

(** A computation whose result does not depend on the trace it starts
    from, and that only adds to it. *)
Definition framed {A : Type} (m : M W A) : Prop :=
  forall w tr,
    m (mkSt w tr) =
    (fst (m (mkSt w [])),
     mkSt (world (snd (m (mkSt w [])))) (tr ++ calls (snd (m (mkSt w []))))).

End Outcomes.

(** The placeholders that an update expression [SET c1, c2, ...] uses:
    the left side of each clause is a path, a name placeholder when it
    starts with [#]; the right side is a value placeholder. *)
Module Expression.

Definition clauses (expr : string) : list string :=
  match Store.strip_prefix "SET " expr with
  | Some c => Store.split ", " c
  | None => []
  end.

Definition sides (clause : string) : list string := Store.split " = " clause.

Definition paths (expr : string) : list string :=
  map (fun c => hd EmptyString (sides c)) (clauses expr).

Definition value_refs (expr : string) : list string :=
  map (fun c => last (sides c) EmptyString) (clauses expr).

Definition name_refs (expr : string) : list string :=
  filter (prefix "#") (paths expr).

End Expression.

(** The line that the [catch] of [main] writes for an error. *)
Definition failure_line (timestamp : string) (e : JsError) : string :=
  log_line timestamp "error" "Request failed"
    (JObj [("error", JStr (message e)); ("stack", opt_str (stack e))]).

(** The line that [main] writes when a request comes in. *)
Definition request_line (timestamp : string) (event : APIGatewayProxyEvent)
  : string :=
  log_line timestamp "info" "Request received"
    (JObj [("method", JStr (httpMethod event));
           ("path", JStr (path event));
           ("todoId", path_id event)]).

(** The event with another path, and with another body. *)
Definition with_path (p : string) (event : APIGatewayProxyEvent)
  : APIGatewayProxyEvent :=
  mkEvent (httpMethod event) p (body event) (pathParameters event).

Definition with_body (b : option string) (event : APIGatewayProxyEvent)
  : APIGatewayProxyEvent :=
  mkEvent (httpMethod event) (path event) b (pathParameters event).

(** More requests and worlds, for the properties of every request. *)
Module MoreExamples.
Import Mock Examples.

Definition patch_event : APIGatewayProxyEvent :=
  createEvent "PATCH" "/todos" None None.

Definition get_event : APIGatewayProxyEvent :=
  createEvent "GET" "/todos/123" None (Some [("id", "123")]).

(** A GET whose identifier is the empty text. *)
Definition get_event_empty_id : APIGatewayProxyEvent :=
  createEvent "GET" "/todos/" None (Some [("id", EmptyString)]).

(** A store that finds [old_item] on every read. *)
Definition world_found : World :=
  mkWorld (resolved (mkOutput (JObj old_item) JUndefined JUndefined))
    (inr tt) 0 1 0.

(** A create request whose body is the JSON text [null], and one that
    has no body. *)
Definition create_event_null : APIGatewayProxyEvent :=
  mkEvent "POST" "/todos" (Some "null") None.

Definition create_event_no_body : APIGatewayProxyEvent :=
  mkEvent "POST" "/todos" None None.

(** The body of [create_event] with more in it: an identifier and
    [completed]. *)
Definition crowded_create_body : option string :=
  JSON_stringify
    (JObj [("todoId", JStr "mine"); ("title", JStr "Test Todo");
           ("completed", JBool true)]).

(** The body of [update_event] with more in it: an identifier and a
    creation time. *)
Definition crowded_update_body : option string :=
  JSON_stringify
    (JObj [("todoId", JStr "other"); ("title", JStr EmptyString);
           ("createdAt", JStr "1999-01-01T00:00:00.000Z");
           ("completed", JBool false)]).

End MoreExamples.

Lemma dynamo_calls_app (a b : list Call) :
  dynamo_calls (a ++ b) = (dynamo_calls a ++ dynamo_calls b)%list.
Proof.
  induction a as [| c a IH]; simpl; [reflexivity |].
  destruct c; simpl; rewrite IH; reflexivity.
Qed.

Lemma metric_calls_app (a b : list Call) :
  metric_calls (a ++ b) = (metric_calls a ++ metric_calls b)%list.
Proof.
  induction a as [| c a IH]; simpl; [reflexivity |].
  destruct c; simpl; rewrite IH; reflexivity.
Qed.

Lemma console_lines_app (a b : list Call) :
  console_lines (a ++ b) = (console_lines a ++ console_lines b)%list.
Proof.
  induction a as [| c a IH]; simpl; [reflexivity |].
  destruct c; simpl; rewrite IH; reflexivity.
Qed.

(* ===================================================================== *)
(** ** Running the handler *)
(* ===================================================================== *)

Section Runs.
Context {W : Type} {RT : Runtime W}.

Implicit Types (s : St W) (w : W) (event : APIGatewayProxyEvent).

(** [log] reads the clock once, writes one line and never throws. *)
Lemma log_run level msg data s :
  log level msg data s =
  (inr tt,
   mkSt (snd (Date_now (world s)))
     (calls s ++ [ConsoleLog
                    (log_line (fst (Date_now (world s))) level msg data)])).
Proof.
  unfold log, bind, now, console_log, record, log_line, logEntry.
  destruct (Date_now (world s)) as [t w']. reflexivity.
Qed.

(** [putMetric] never throws: it reads the clock, calls the sink, and
    when the sink fails it writes a line and returns. *)
Lemma putMetric_run metricName value s :
  putMetric metricName value s =
  let (t, w1) := Date_now (world s) in
  let cmd := {| Namespace := "TodoApp";
                MetricData := [ {| MetricName := metricName;
                                   Value := value;
                                   Unit := "Count";
                                   Timestamp := t |} ] |} in
  let (r, w2) := cloudWatch_send cmd w1 in
  match r with
  | inr _ => (inr tt, mkSt w2 (calls s ++ [CloudWatchSend cmd r]))
  | inl e =>
      (inr tt,
       mkSt (snd (Date_now w2))
         (calls s ++ [CloudWatchSend cmd r;
                      ConsoleLog
                        (log_line (fst (Date_now w2)) "error"
                           "Failed to put metric"
                           (JObj [("error", JStr (message e))]))]))
  end.
Proof.
  unfold putMetric, try_catch, bind, now, send_metric, record.
  destruct (Date_now (world s)) as [t w1]. cbn [world calls].
  destruct (cloudWatch_send _ w1) as [[e | []] w2]; cbn [world calls].
  - rewrite log_run. cbn [world calls]. rewrite <- app_assoc. reflexivity.
  - reflexivity.
Qed.

Lemma putMetric_total metricName value s :
  exists s', putMetric metricName value s = (inr tt, s').
Proof.
  rewrite putMetric_run.
  destruct (Date_now (world s)) as [t w1].
  cbv zeta.
  destruct (cloudWatch_send _ w1) as [[e | u] w2]; eauto.
Qed.

(** *** [main] around [route] *)

Lemma main_run event s :
  main event s =
  match route event (entered event s) with
  | (inr resp, s') => (inr resp, s')
  | (inl e, s') =>
      (inr internal_error,
       mkSt (snd (Date_now (world s')))
         (calls s' ++ [ConsoleLog
                         (log_line (fst (Date_now (world s'))) "error"
                            "Request failed"
                            (JObj [("error", JStr (message e));
                                   ("stack", opt_str (stack e))]))]))
  end.
Proof.
  unfold main, bind at 1. rewrite log_run. fold (entered event s).
  unfold try_catch.
  destruct (route event (entered event s)) as [[e | resp] s'];
    [| reflexivity].
  unfold bind. rewrite log_run. reflexivity.
Qed.

(** [main] always returns a response. *)
Lemma main_total event s :
  exists resp s', main event s = (inr resp, s').
Proof.
  rewrite main_run.
  destruct (route event (entered event s)) as [[e | resp] s']; eauto.
Qed.

(** *** The routes *)

Lemma route_POST event :
  httpMethod event = "POST" -> route event = createTodo event.
Proof. intros H. unfold route. rewrite H. reflexivity. Qed.

Lemma route_GET_list event :
  httpMethod event = "GET" -> truthy (path_id event) = false ->
  route event = listTodos.
Proof. intros H H'. unfold route. rewrite H, H'. reflexivity. Qed.

Lemma route_GET_item event :
  httpMethod event = "GET" -> truthy (path_id event) = true ->
  route event = getTodo (path_id event).
Proof. intros H H'. unfold route. rewrite H, H'. reflexivity. Qed.

Lemma route_PUT event :
  httpMethod event = "PUT" ->
  route event = updateTodo (path_id event) event.
Proof. intros H. unfold route. rewrite H. reflexivity. Qed.

Lemma route_DELETE event :
  httpMethod event = "DELETE" ->
  route event = deleteTodo (path_id event).
Proof. intros H. unfold route. rewrite H. reflexivity. Qed.

Lemma route_other event s :
  (httpMethod event =? "POST") = false ->
  (httpMethod event =? "GET") = false ->
  (httpMethod event =? "PUT") = false ->
  (httpMethod event =? "DELETE") = false ->
  route event s =
  (inr (createResponse 405 (error_body "Method not allowed")), s).
Proof.
  intros H1 H2 H3 H4. unfold route. rewrite H1, H2, H3, H4. reflexivity.
Qed.

(** *** Create *)

Lemma createTodo_invalid event s b t :
  JSON_parse (body_text event) = inr b ->
  get_prop b "title" = inr t ->
  truthy t = false ->
  createTodo event s =
  (inr (createResponse 400 (error_body "Title is required")), s).
Proof.
  intros Hb Ht Hf.
  unfold createTodo, bind, parse, prop, lift. rewrite Hb, Ht, Hf.
  reflexivity.
Qed.

Lemma createTodo_parse_error event s e :
  JSON_parse (body_text event) = inl e ->
  createTodo event s = (inl e, s).
Proof.
  intros Hb. unfold createTodo, bind, parse, lift. rewrite Hb. reflexivity.
Qed.

(** The run of [createTodo] on a body with a truthy title, up to the
    reply of the store. *)
Lemma createTodo_valid event s b t d id w1 c w2 u w3 r w4 :
  JSON_parse (body_text event) = inr b ->
  get_prop b "title" = inr t ->
  truthy t = true ->
  get_prop b "description" = inr d ->
  uuidv4 (world s) = (id, w1) ->
  Date_now w1 = (c, w2) ->
  Date_now w2 = (u, w3) ->
  let todo := mkTodo id t (js_or d (JStr EmptyString)) false c u in
  let cmd := PutCommand TABLE_NAME (todo_value todo) in
  dynamoDb_send cmd w3 = (r, w4) ->
  let s4 := mkSt w4 (calls s ++ [DynamoSend cmd r]) in
  createTodo event s =
  match r with
  | inl e => (inl e, s4)
  | inr _ =>
      let s5 := snd (putMetric "TodoCreatedCount" 1 s4) in
      (inr (createResponse 201 (todo_value todo)),
       mkSt (snd (Date_now (world s5)))
         (calls s5 ++ [ConsoleLog
                         (log_line (fst (Date_now (world s5))) "info"
                            "Todo created"
                            (JObj [("todoId", JStr id)]))]))
  end.
Proof.
  intros Hb Ht Htrue Hd Hid Hc Hu todo cmd Hsend s4.
  unfold createTodo, bind, parse, prop, lift, uuid, now, send, record.
  rewrite Hb, Ht, Htrue. cbn [negb]. rewrite Hid. cbn [world calls].
  rewrite Hd, Hc. cbn [world calls]. rewrite Hu. cbn [world calls].
  fold todo. fold cmd. rewrite Hsend.
  destruct r as [e | out]; [reflexivity |].
  fold s4. destruct (putMetric_total "TodoCreatedCount" 1 s4) as [s5 Hm].
  rewrite Hm. cbn [snd]. rewrite log_run. reflexivity.
Qed.

(** *** Get and list *)

Lemma getTodo_run id s r w1 :
  let cmd := GetCommand TABLE_NAME (JObj [("todoId", id)]) in
  dynamoDb_send cmd (world s) = (r, w1) ->
  let s1 := mkSt w1 (calls s ++ [DynamoSend cmd r]) in
  getTodo id s =
  match r with
  | inl e => (inl e, s1)
  | inr out =>
      if truthy (Item out) then
        (inr (createResponse 200 (Item out)),
         mkSt (snd (Date_now w1))
           (calls s1 ++ [ConsoleLog
                           (log_line (fst (Date_now w1)) "info"
                              "Todo retrieved" (JObj [("todoId", id)]))]))
      else (inr not_found, s1)
  end.
Proof.
  intros cmd Hsend s1. unfold getTodo, bind, send, record.
  fold cmd. rewrite Hsend. destruct r as [e | out]; [reflexivity |].
  fold s1. destruct (truthy (Item out)); cbn [negb]; [| reflexivity].
  rewrite log_run. reflexivity.
Qed.

Lemma listTodos_run s r w1 :
  let cmd := ScanCommand TABLE_NAME in
  dynamoDb_send cmd (world s) = (r, w1) ->
  let s1 := mkSt w1 (calls s ++ [DynamoSend cmd r]) in
  listTodos s =
  match r with
  | inl e => (inl e, s1)
  | inr out =>
      (inr (createResponse 200
              (JObj [("todos", js_or (Items out) (JArr []))])),
       mkSt (snd (Date_now w1))
         (calls s1 ++ [ConsoleLog
                         (log_line (fst (Date_now w1)) "info"
                            "Todos listed"
                            (JObj [("count",
                                    js_or (opt_length (Items out))
                                      (JNum 0))]))]))
  end.
Proof.
  intros cmd Hsend s1. unfold listTodos, bind, send, record.
  fold cmd. rewrite Hsend. destruct r as [e | out]; [reflexivity |].
  fold s1. rewrite log_run. reflexivity.
Qed.

(** *** Update *)

Lemma updateTodo_parse_error id event s e :
  JSON_parse (body_text event) = inl e ->
  updateTodo id event s = (inl e, s).
Proof.
  intros Hb. unfold updateTodo, bind, parse, lift. rewrite Hb. reflexivity.
Qed.

(** No clause is pushed exactly when the three fields are [undefined]. *)
Lemma update_parts_empty vt vd vc :
  (List.length (updateExpression (update_parts vt vd vc)) =? 0)%nat =
  negb (defined vt || defined vd || defined vc).
Proof.
  unfold update_parts.
  destruct (defined vt), (defined vd), (defined vc); reflexivity.
Qed.

Lemma updateTodo_invalid id event s b vt vd vc :
  JSON_parse (body_text event) = inr b ->
  get_prop b "title" = inr vt ->
  get_prop b "description" = inr vd ->
  get_prop b "completed" = inr vc ->
  defined vt || defined vd || defined vc = false ->
  updateTodo id event s =
  (inr (createResponse 400 (error_body "No valid fields to update")), s).
Proof.
  intros Hb Ht Hd Hc Hnone.
  unfold updateTodo, bind, parse, prop, lift.
  rewrite Hb, Ht, Hd, Hc, update_parts_empty, Hnone. reflexivity.
Qed.

Lemma updateTodo_valid id event s b vt vd vc t w1 r w2 :
  JSON_parse (body_text event) = inr b ->
  get_prop b "title" = inr vt ->
  get_prop b "description" = inr vd ->
  get_prop b "completed" = inr vc ->
  defined vt || defined vd || defined vc = true ->
  Date_now (world s) = (t, w1) ->
  let cmd := update_command id (update_parts vt vd vc) t in
  dynamoDb_send cmd w1 = (r, w2) ->
  let s2 := mkSt w2 (calls s ++ [DynamoSend cmd r]) in
  updateTodo id event s =
  match r with
  | inr out =>
      (inr (createResponse 200 (Attributes out)),
       mkSt (snd (Date_now w2))
         (calls s2 ++ [ConsoleLog
                         (log_line (fst (Date_now w2)) "info"
                            "Todo updated" (JObj [("todoId", id)]))]))
  | inl e =>
      if name e =? "ValidationException" then (inr not_found, s2)
      else (inl e, s2)
  end.
Proof.
  intros Hb Ht Hd Hc Hsome Hnow cmd Hsend s2.
  unfold updateTodo, bind, parse, prop, lift.
  rewrite Hb, Ht, Hd, Hc, update_parts_empty, Hsome. cbn [negb].
  unfold now. rewrite Hnow. unfold try_catch, bind, send, record.
  cbn [world calls]. fold cmd. rewrite Hsend.
  destruct r as [e | out].
  - fold s2. unfold ret, throw, not_found.
    destruct (name e =? "ValidationException"); reflexivity.
  - fold s2. rewrite log_run. reflexivity.
Qed.

(** *** Delete *)

Lemma deleteTodo_run id s r w1 :
  let cmd := DeleteCommand TABLE_NAME (JObj [("todoId", id)])
               "attribute_exists(todoId)" in
  dynamoDb_send cmd (world s) = (r, w1) ->
  let s1 := mkSt w1 (calls s ++ [DynamoSend cmd r]) in
  deleteTodo id s =
  match r with
  | inr _ =>
      (inr (createResponse 204 (JObj [])),
       mkSt (snd (Date_now w1))
         (calls s1 ++ [ConsoleLog
                         (log_line (fst (Date_now w1)) "info"
                            "Todo deleted" (JObj [("todoId", id)]))]))
  | inl e =>
      if name e =? "ConditionalCheckFailedException"
      then (inr not_found, s1)
      else (inl e, s1)
  end.
Proof.
  intros cmd Hsend s1. unfold deleteTodo, try_catch, bind, send, record.
  fold cmd. rewrite Hsend. destruct r as [e | out].
  - fold s1. unfold ret, throw, not_found.
    destruct (name e =? "ConditionalCheckFailedException"); reflexivity.
  - fold s1. rewrite log_run. reflexivity.
Qed.

(** *** Every response is built by [createResponse] *)

Ltac case_run :=
  repeat first
    [ rewrite log_run
    | progress cbn [world calls fst snd negb headers createResponse]
    | match goal with
      | |- context [putMetric ?n ?v ?s] =>
          let H := fresh "Hm" in
          destruct (putMetric_total n v s) as [? H]; rewrite H
      | |- context [JSON_parse ?x] => destruct (JSON_parse x)
      | |- context [get_prop ?v ?k] => destruct (get_prop v k)
      | |- context [uuidv4 ?w] => destruct (uuidv4 w)
      | |- context [Date_now ?w] => destruct (Date_now w)
      | |- context [dynamoDb_send ?c ?w] =>
          destruct (dynamoDb_send c w) as [[? | ?] ?]
      | |- context [if ?b then _ else _] => destruct b
      end ].

Lemma createTodo_headers event s : well_formed (createTodo event s).
Proof.
  unfold well_formed, createTodo, bind, parse, prop, lift, uuid, now,
    send, record, ret.
  case_run; auto.
Qed.

Lemma getTodo_headers id s : well_formed (getTodo id s).
Proof.
  unfold well_formed, getTodo, bind, send, record, ret.
  case_run; auto.
Qed.

Lemma listTodos_headers s : well_formed (listTodos s).
Proof.
  unfold well_formed, listTodos, bind, send, record, ret.
  case_run; auto.
Qed.

Lemma updateTodo_headers id event s : well_formed (updateTodo id event s).
Proof.
  unfold well_formed, updateTodo, try_catch, bind, parse, prop, lift, now,
    send, record, ret, throw.
  case_run; auto.
Qed.

Lemma deleteTodo_headers id s : well_formed (deleteTodo id s).
Proof.
  unfold well_formed, deleteTodo, try_catch, bind, send, record, ret, throw.
  case_run; auto.
Qed.

(** *** Store errors that are not recognised are thrown *)

Ltac case_run_eq :=
  repeat first
    [ rewrite log_run
    | rewrite putMetric_run
    | progress cbv zeta
    | progress cbn [world calls fst snd negb]
    | match goal with
      | |- context [JSON_parse ?x] => destruct (JSON_parse x)
      | |- context [get_prop ?v ?k] => destruct (get_prop v k)
      | |- context [uuidv4 ?w] => destruct (uuidv4 w)
      | |- context [Date_now ?w] => destruct (Date_now w)
      | |- context [dynamoDb_send ?c ?w] =>
          destruct (dynamoDb_send c w) as [[? | ?] ?]
      | |- context [cloudWatch_send ?c ?w] =>
          destruct (cloudWatch_send c w) as [[? | ?] ?]
      | |- context [if ?b then _ else _] => destruct b eqn:?
      end ].

Ltac thrown H0 :=
  let cmd := fresh "cmd" in
  let e := fresh "e" in
  let Hin := fresh "Hin" in
  let Hrec := fresh "Hrec" in
  intros cmd e Hin Hrec; cbn [fst snd calls] in *;
  rewrite ?dynamo_calls_app, ?H0 in Hin; cbn in Hin;
  try contradiction;
  destruct Hin as [Hin | []]; inversion Hin; subst;
  cbn in Hrec; try congruence; eauto.

Lemma createTodo_store_error event s :
  dynamo_calls (calls s) = [] -> store_error_thrown (createTodo event s).
Proof.
  intros H0.
  unfold store_error_thrown, createTodo, bind, parse, prop, lift, uuid,
    now, send, record, ret.
  case_run_eq; thrown H0.
Qed.

Lemma getTodo_store_error id s :
  dynamo_calls (calls s) = [] -> store_error_thrown (getTodo id s).
Proof.
  intros H0.
  unfold store_error_thrown, getTodo, bind, send, record, ret.
  case_run_eq; thrown H0.
Qed.

Lemma listTodos_store_error s :
  dynamo_calls (calls s) = [] -> store_error_thrown (listTodos s).
Proof.
  intros H0.
  unfold store_error_thrown, listTodos, bind, send, record, ret.
  case_run_eq; thrown H0.
Qed.

Lemma updateTodo_store_error id event s :
  dynamo_calls (calls s) = [] ->
  store_error_thrown (updateTodo id event s).
Proof.
  intros H0.
  unfold store_error_thrown, updateTodo, try_catch, bind, parse, prop,
    lift, now, send, record, ret, throw, update_command.
  case_run_eq; thrown H0.
Qed.

Lemma deleteTodo_store_error id s :
  dynamo_calls (calls s) = [] -> store_error_thrown (deleteTodo id s).
Proof.
  intros H0.
  unfold store_error_thrown, deleteTodo, try_catch, bind, send, record,
    ret, throw.
  case_run_eq; thrown H0.
Qed.

Lemma route_store_error event s :
  dynamo_calls (calls s) = [] -> store_error_thrown (route event s).
Proof.
  intros H0. unfold route.
  destruct (httpMethod event =? "POST");
    [apply createTodo_store_error; exact H0 |].
  destruct (httpMethod event =? "GET").
  { destruct (truthy (path_id event));
      [apply getTodo_store_error | apply listTodos_store_error];
      exact H0. }
  destruct (httpMethod event =? "PUT");
    [apply updateTodo_store_error; exact H0 |].
  destruct (httpMethod event =? "DELETE");
    [apply deleteTodo_store_error; exact H0 |].
  intros cmd e Hin _. cbn in Hin. rewrite H0 in Hin. contradiction.
Qed.

Lemma route_headers event s : well_formed (route event s).
Proof.
  unfold route.
  destruct (httpMethod event =? "POST"); [apply createTodo_headers |].
  destruct (httpMethod event =? "GET").
  { destruct (truthy (path_id event));
      [apply getTodo_headers | apply listTodos_headers]. }
  destruct (httpMethod event =? "PUT"); [apply updateTodo_headers |].
  destruct (httpMethod event =? "DELETE"); [apply deleteTodo_headers |].
  reflexivity.
Qed.

End Runs.

(* ===================================================================== *)
(** ** The assignments of an update *)
(* ===================================================================== *)

Section Assignments.

Lemma assoc_app (A : Type) (k : string) (l1 l2 : list (string * A)) :
  assoc k (l1 ++ l2) =
  match assoc k l1 with Some v => Some v | None => assoc k l2 end.
Proof.
  induction l1 as [| [k' v'] l1 IH]; simpl; [reflexivity |].
  destruct (k' =? k); auto.
Qed.

Lemma assoc_set_prop k k' v l :
  assoc k (set_prop k' v l) = if k' =? k then Some v else assoc k l.
Proof.
  induction l as [| [k0 v0] l IH]; simpl.
  - reflexivity.
  - destruct (k0 =? k') eqn:E0; simpl.
    + apply String.eqb_eq in E0. subst k0.
      destruct (k' =? k); reflexivity.
    + rewrite IH. destruct (k0 =? k) eqn:E1; [| reflexivity].
      apply String.eqb_eq in E1. subst k0. rewrite String.eqb_sym, E0.
      reflexivity.
Qed.

(** After the assignments, an attribute holds the value of the last
    assignment to it, and its old value when none assigns it. *)
Lemma assign_spec sets : forall item k,
  assoc k (Store.assign item sets) =
  match assoc k (rev sets) with
  | Some v => Some v
  | None => assoc k item
  end.
Proof.
  unfold Store.assign.
  induction sets as [| [k' v'] sets IH]; intros item k; simpl.
  - reflexivity.
  - rewrite IH, assoc_app, assoc_set_prop. simpl.
    destruct (assoc k (rev sets)); [reflexivity |].
    destruct (k' =? k); reflexivity.
Qed.

Lemma assoc_rev_none (A : Type) (k : string) (l : list (string * A)) :
  assoc k l = None -> assoc k (rev l) = None.
Proof.
  induction l as [| [k' v'] l IH]; simpl; [reflexivity |].
  destruct (k' =? k) eqn:E; [discriminate |].
  intros H. rewrite assoc_app, (IH H). simpl. rewrite E. reflexivity.
Qed.

Context {W : Type} {RT : Runtime W}.

(** The request that [updateTodo] sends assigns the fields of the body
    that are not [undefined], then [updatedAt]. *)
Lemma update_command_assignments id vt vd vc t :
  Store.assignments (update_command id (update_parts vt vd vc) t) =
  Some (body_fields vt vd vc ++ [("updatedAt", JStr t)])%list.
Proof.
  unfold update_command, update_parts, body_fields.
  destruct (defined vt), (defined vd), (defined vc); reflexivity.
Qed.

Lemma update_command_key id parts t :
  exists expr values names,
    update_command id parts t =
    UpdateCommand TABLE_NAME (JObj [("todoId", id)]) expr values names
      "ALL_NEW".
Proof. unfold update_command. eauto. Qed.

(** A field is among the assignments of the body exactly when the body
    defines it, and it is assigned the value that the body gives it. *)
Lemma body_fields_spec vt vd vc k v :
  In (k, v) (body_fields vt vd vc) <->
  (k = "title" /\ v = vt /\ vt <> JUndefined) \/
  (k = "description" /\ v = vd /\ vd <> JUndefined) \/
  (k = "completed" /\ v = vc /\ vc <> JUndefined).
Proof.
  assert (Hdef : forall x, defined x = false <-> x = JUndefined).
  { intros x. destruct x; simpl; split; congruence. }
  unfold body_fields. rewrite !in_app_iff.
  split.
  - intros [H | [H | H]];
      [destruct (defined vt) eqn:E | destruct (defined vd) eqn:E
       | destruct (defined vc) eqn:E];
      simpl in H; try tauto; destruct H as [H | []];
      injection H as <- <-.
    + left. repeat split. intros ->. discriminate.
    + right; left. repeat split. intros ->. discriminate.
    + right; right. repeat split. intros ->. discriminate.
  - intros [(-> & -> & H) | [(-> & -> & H) | (-> & -> & H)]].
    + left. destruct (defined vt) eqn:E; [left; reflexivity |].
      apply Hdef in E. contradiction.
    + right; left. destruct (defined vd) eqn:E; [left; reflexivity |].
      apply Hdef in E. contradiction.
    + right; right. destruct (defined vc) eqn:E; [left; reflexivity |].
      apply Hdef in E. contradiction.
Qed.

End Assignments.

(* ===================================================================== *)
(** ** The properties of the dispatcher *)
(* ===================================================================== *)

Section Dispatcher.
Context {W : Type} {RT : Runtime W}.

Implicit Types (w : W) (event : APIGatewayProxyEvent).

Lemma handle_run event w :
  handle event w =
  match route event (entered event (mkSt w [])) with
  | (inr resp, s') => (inr resp, s')
  | (inl e, s') =>
      (inr internal_error,
       mkSt (snd (Date_now (world s')))
         (calls s' ++ [ConsoleLog
                         (log_line (fst (Date_now (world s'))) "error"
                            "Request failed"
                            (JObj [("error", JStr (message e));
                                   ("stack", opt_str (stack e))]))]))
  end.
Proof. apply main_run. Qed.

(** The trace at the start of the [try]: the request line. *)
Lemma entered_calls event w :
  dynamo_calls (calls (entered event (mkSt w []))) = [] /\
  metric_calls (calls (entered event (mkSt w []))) = [].
Proof. split; reflexivity. Qed.

(** What the [catch] of [main] leaves of a run of [route]: the response
    or the 500, and the calls of the run. *)
Lemma handle_of_route event w r s' :
  route event (entered event (mkSt w [])) = (r, s') ->
  fst (handle event w) =
    inr (match r with inr resp => resp | inl _ => internal_error end) /\
  dynamo_calls (calls (snd (handle event w))) = dynamo_calls (calls s') /\
  metric_calls (calls (snd (handle event w))) = metric_calls (calls s').
Proof.
  intros H. rewrite handle_run, H. destruct r as [e | resp].
  - cbn [fst snd calls]. rewrite dynamo_calls_app, metric_calls_app. cbn.
    rewrite !app_nil_r. auto.
  - auto.
Qed.

Lemma entered_eq event w ts w1 :
  Date_now w = (ts, w1) ->
  entered event (mkSt w []) =
  mkSt w1 [ConsoleLog
             (log_line ts "info" "Request received"
                (JObj [("method", JStr (httpMethod event));
                       ("path", JStr (path event));
                       ("todoId", path_id event)]))].
Proof. intros H. unfold entered. cbn [world calls]. rewrite H. reflexivity. Qed.

Lemma handle_at event w ts w1 r s' :
  Date_now w = (ts, w1) ->
  route event
    (mkSt w1 [ConsoleLog
                (log_line ts "info" "Request received"
                   (JObj [("method", JStr (httpMethod event));
                          ("path", JStr (path event));
                          ("todoId", path_id event)]))]) = (r, s') ->
  fst (handle event w) =
    inr (match r with inr resp => resp | inl _ => internal_error end) /\
  dynamo_calls (calls (snd (handle event w))) = dynamo_calls (calls s') /\
  metric_calls (calls (snd (handle event w))) = metric_calls (calls s').
Proof.
  intros Hts Hr. apply handle_of_route.
  rewrite (entered_eq event w Hts). exact Hr.
Qed.

(** C8. Every response of the dispatcher, whatever the operation and
    its outcome, carries the headers [Content-Type: application/json],
    [Access-Control-Allow-Origin: *] and
    [Access-Control-Allow-Methods: GET,POST,PUT,DELETE,OPTIONS]. *)
Theorem every_response_has_headers event w :
  exists resp,
    fst (handle event w) = inr resp /\
    headers resp =
      [("Content-Type", "application/json");
       ("Access-Control-Allow-Origin", "*");
       ("Access-Control-Allow-Methods", "GET,POST,PUT,DELETE,OPTIONS")].
Proof.
  rewrite handle_run.
  pose proof (route_headers event (entered event (mkSt w []))) as H.
  destruct (route event (entered event (mkSt w []))) as [[e | resp] s'].
  - exists internal_error. split; reflexivity.
  - exists resp. split; [reflexivity | exact H].
Qed.

(** C6. Whatever the request, the dispatcher returns a whole response
    and never throws; a failure raised while handling it (a body that
    does not parse on create or update, a store error that is not a
    recognised not-found signal, anything else thrown inside the
    [try]) is turned into status 500 with the body
    [{error: Internal server error}], a constant that carries
    nothing of the error. *)
Theorem failures_become_internal_error event w :
  (exists resp, fst (handle event w) = inr resp) /\
  (forall e s',
      route event (entered event (mkSt w [])) = (inl e, s') ->
      fst (handle event w) = inr internal_error) /\
  (forall e,
      httpMethod event = "POST" \/ httpMethod event = "PUT" ->
      JSON_parse (body_text event) = inl e ->
      fst (handle event w) = inr internal_error) /\
  (forall cmd e,
      In (cmd, inl e) (dynamo_calls (calls (snd (handle event w)))) ->
      recognised cmd e = false ->
      fst (handle event w) = inr internal_error) /\
  statusCode internal_error = 500%Z /\
  resultBody internal_error = Some (error_text "Internal server error").
Proof.
  assert (Hcatch : forall e s',
             route event (entered event (mkSt w [])) = (inl e, s') ->
             fst (handle event w) = inr internal_error).
  { intros e s' H. apply (handle_of_route event w H). }
  split; [| split; [exact Hcatch | split; [| split; [| split]]]].
  - destruct (main_total event (mkSt w [])) as (resp & s' & H).
    exists resp. unfold handle. rewrite H. reflexivity.
  - intros e [Hm | Hm] Hparse.
    + apply (Hcatch e (entered event (mkSt w []))).
      rewrite (route_POST event Hm). apply createTodo_parse_error, Hparse.
    + apply (Hcatch e (entered event (mkSt w []))).
      rewrite (route_PUT event Hm). apply updateTodo_parse_error, Hparse.
  - intros cmd e Hin Hrec.
    destruct (route event (entered event (mkSt w []))) as [r s'] eqn:Hr.
    destruct (handle_of_route event w Hr) as (Hresp & Hcalls & _).
    rewrite Hcalls in Hin.
    pose proof (@route_store_error W RT event (entered event (mkSt w []))
                  (proj1 (entered_calls event w))) as Hthrown.
    rewrite Hr in Hthrown.
    destruct (Hthrown cmd e Hin Hrec) as [e' He']. cbn [fst] in He'.
    subst r. exact Hresp.
  - reflexivity.
  - reflexivity.
Qed.

(** C4. A create request whose parsed body has a missing or falsy
    title is answered with status 400 and the body
    [{error: Title is required}]; no call is made to the store and
    none to the metrics sink. *)
Theorem create_without_title_is_rejected event w b t :
  httpMethod event = "POST" ->
  JSON_parse (body_text event) = inr b ->
  get_prop b "title" = inr t ->
  truthy t = false ->
  fst (handle event w) =
    inr (createResponse 400 (error_body "Title is required")) /\
  resultBody (createResponse 400 (error_body "Title is required")) =
    Some (error_text "Title is required") /\
  dynamo_calls (calls (snd (handle event w))) = [] /\
  metric_calls (calls (snd (handle event w))) = [].
Proof.
  intros Hm Hb Ht Hf.
  pose proof (createTodo_invalid event (entered event (mkSt w [])) Hb Ht Hf)
    as Hrun.
  rewrite <- (route_POST event Hm) in Hrun.
  destruct (handle_of_route event w Hrun) as (Hresp & Hd & Hmc).
  rewrite Hresp, Hd, Hmc. repeat split; reflexivity.
Qed.

Lemma handle_returns event w resp s' :
  route event (entered event (mkSt w [])) = (inr resp, s') ->
  handle event w = (inr resp, s').
Proof. intros H. rewrite handle_run, H. reflexivity. Qed.

(** The whole run of a create request whose write succeeds: the
    response and the trace, whatever the metrics sink replies. *)
Lemma create_run event w b t d ts w1 id w2 c w3 u w4 out w5 tm w6 mr w7 :
  httpMethod event = "POST" ->
  JSON_parse (body_text event) = inr b ->
  get_prop b "title" = inr t ->
  truthy t = true ->
  get_prop b "description" = inr d ->
  Date_now w = (ts, w1) ->
  uuidv4 w1 = (id, w2) ->
  Date_now w2 = (c, w3) ->
  Date_now w3 = (u, w4) ->
  let todo := mkTodo id t (js_or d (JStr EmptyString)) false c u in
  let cmd := PutCommand TABLE_NAME (todo_value todo) in
  dynamoDb_send cmd w4 = (inr out, w5) ->
  Date_now w5 = (tm, w6) ->
  cloudWatch_send (created_metric tm) w6 = (mr, w7) ->
  let w8 := match mr with inl _ => snd (Date_now w7) | inr _ => w7 end in
  fst (handle event w) = inr (createResponse 201 (todo_value todo)) /\
  calls (snd (handle event w)) =
    ([ConsoleLog
        (log_line ts "info" "Request received"
           (JObj [("method", JStr (httpMethod event));
                  ("path", JStr (path event));
                  ("todoId", path_id event)]));
      DynamoSend cmd (inr out);
      CloudWatchSend (created_metric tm) mr]
     ++ match mr with
        | inl e =>
            [ConsoleLog
               (log_line (fst (Date_now w7)) "error" "Failed to put metric"
                  (JObj [("error", JStr (message e))]))]
        | inr _ => []
        end
     ++ [ConsoleLog
           (log_line (fst (Date_now w8)) "info" "Todo created"
              (JObj [("todoId", JStr id)]))])%list.
Proof.
  intros Hm Hb Ht Htrue Hd Hts Hid Hc Hu todo cmd Hput Htm Hmr w8.
  set (line := log_line ts "info" "Request received" _).
  assert (Hent : entered event (mkSt w []) = mkSt w1 [ConsoleLog line]).
  { unfold entered. cbn [world calls]. rewrite Hts. reflexivity. }
  pose proof (createTodo_valid event (mkSt w1 [ConsoleLog line])
                Hb Ht Htrue Hd Hid Hc Hu Hput) as Hrun.
  cbv zeta in Hrun. rewrite putMetric_run in Hrun. cbn [world] in Hrun.
  rewrite Htm in Hrun. cbv beta iota zeta in Hrun.
  fold (created_metric tm) in Hrun. rewrite Hmr in Hrun.
  rewrite <- (route_POST event Hm), <- Hent in Hrun.
  fold todo cmd in Hrun.
  destruct mr as [e | u0]; cbn [snd world calls] in Hrun;
    rewrite (handle_returns event w Hrun); cbn [fst snd calls];
    (split; [reflexivity |]); subst w8; rewrite Hent; cbn [calls app];
    rewrite <- ?app_assoc; reflexivity.
Qed.

(** C1. A create request whose parsed body has a truthy title, and
    whose write the store accepts, is answered with status 201; the
    body of the response is the item that was written.  Its
    identifier is the one that the generator gave for this request,
    [completed] is [false], [description] is the description of the
    body when that is truthy and the empty string otherwise, and
    [createdAt] and [updatedAt] are two successive readings of the
    clock, [createdAt] first. *)
Theorem create_returns_the_new_item
    event w b t d ts w1 id w2 c w3 u w4 out w5 :
  httpMethod event = "POST" ->
  JSON_parse (body_text event) = inr b ->
  get_prop b "title" = inr t ->
  truthy t = true ->
  get_prop b "description" = inr d ->
  Date_now w = (ts, w1) ->
  uuidv4 w1 = (id, w2) ->
  Date_now w2 = (c, w3) ->
  Date_now w3 = (u, w4) ->
  let item :=
    JObj [("todoId", JStr id);
          ("title", t);
          ("description", if truthy d then d else JStr EmptyString);
          ("completed", JBool false);
          ("createdAt", JStr c);
          ("updatedAt", JStr u)] in
  dynamoDb_send (PutCommand TABLE_NAME item) w4 = (inr out, w5) ->
  fst (handle event w) = inr (createResponse 201 item) /\
  statusCode (createResponse 201 item) = 201%Z /\
  resultBody (createResponse 201 item) = JSON_stringify item /\
  dynamo_calls (calls (snd (handle event w))) =
    [(PutCommand TABLE_NAME item, inr out)].
Proof.
  intros Hm Hb Ht Htrue Hd Hts Hid Hc Hu item Hput.
  destruct (Date_now w5) as [tm w6] eqn:Htm.
  destruct (cloudWatch_send (created_metric tm) w6) as [mr w7] eqn:Hmr.
  destruct (create_run event w Hm Hb Ht Htrue Hd Hts Hid Hc Hu Hput Htm Hmr)
    as [Hresp Hcalls].
  split; [exact Hresp |]. split; [reflexivity |]. split; [reflexivity |].
  rewrite Hcalls. destruct mr; reflexivity.
Qed.

(** C7. On a create request with a truthy title whose write succeeds,
    a failure of the metrics sink on the [TodoCreatedCount] counter is
    caught where it happens: one line that reports it goes to the
    console and the request is still answered with status 201. *)
Theorem metric_failure_does_not_fail_create
    event w b t d ts w1 id w2 c w3 u w4 out w5 tm w6 e w7 tl w8 :
  httpMethod event = "POST" ->
  JSON_parse (body_text event) = inr b ->
  get_prop b "title" = inr t ->
  truthy t = true ->
  get_prop b "description" = inr d ->
  Date_now w = (ts, w1) ->
  uuidv4 w1 = (id, w2) ->
  Date_now w2 = (c, w3) ->
  Date_now w3 = (u, w4) ->
  let item :=
    JObj [("todoId", JStr id);
          ("title", t);
          ("description", if truthy d then d else JStr EmptyString);
          ("completed", JBool false);
          ("createdAt", JStr c);
          ("updatedAt", JStr u)] in
  dynamoDb_send (PutCommand TABLE_NAME item) w4 = (inr out, w5) ->
  Date_now w5 = (tm, w6) ->
  cloudWatch_send (created_metric tm) w6 = (inl e, w7) ->
  Date_now w7 = (tl, w8) ->
  fst (handle event w) = inr (createResponse 201 item) /\
  statusCode (createResponse 201 item) = 201%Z /\
  metric_calls (calls (snd (handle event w))) =
    [(created_metric tm, inl e)] /\
  In (log_line tl "error" "Failed to put metric"
        (JObj [("error", JStr (message e))]))
     (console_lines (calls (snd (handle event w)))).
Proof.
  intros Hm Hb Ht Htrue Hd Hts Hid Hc Hu item Hput Htm Hmr Htl.
  destruct (create_run event w Hm Hb Ht Htrue Hd Hts Hid Hc Hu Hput Htm Hmr)
    as [Hresp Hcalls].
  split; [exact Hresp |]. split; [reflexivity |].
  rewrite Hcalls, Htl. split; [reflexivity |].
  cbn. right. left. reflexivity.
Qed.

(** C9. A list request makes one call to the store, a scan of the
    whole table; when the scan succeeds the response has status 200
    and the body [{todos: items}] where [items] is the list that the
    store returned, as it returned it; when the store returned an
    empty list, or no list, the body is [{todos: []}] and the
    response is still the 200. *)
Theorem list_returns_the_scanned_items event w ts w1 r w2 :
  httpMethod event = "GET" ->
  truthy (path_id event) = false ->
  Date_now w = (ts, w1) ->
  dynamoDb_send (ScanCommand TABLE_NAME) w1 = (r, w2) ->
  dynamo_calls (calls (snd (handle event w))) =
    [(ScanCommand TABLE_NAME, r)] /\
  forall out, r = inr out ->
    (forall items, Items out = JArr items ->
       fst (handle event w) =
         inr (createResponse 200 (JObj [("todos", JArr items)]))) /\
    (Items out = JUndefined \/ Items out = JArr [] ->
       fst (handle event w) =
         inr (createResponse 200 (JObj [("todos", JArr [])])) /\
       resultBody (createResponse 200 (JObj [("todos", JArr [])])) =
         Some ("{" ++ String dquote ("todos" ++ String dquote ":[]}"))).
Proof.
  intros Hm Hid Hts Hscan.
  set (s1 := mkSt w1 [ConsoleLog (log_line ts "info" "Request received"
                        (JObj [("method", JStr (httpMethod event));
                               ("path", JStr (path event));
                               ("todoId", path_id event)]))]).
  pose proof (listTodos_run s1 Hscan) as Hrun.
  cbv zeta in Hrun. rewrite <- (route_GET_list event Hm Hid) in Hrun.
  destruct r as [e | out];
    destruct (handle_at event w Hts Hrun) as (Hresp & Hd & _);
    rewrite Hresp, Hd; cbn [calls]; rewrite ?dynamo_calls_app;
    (split; [reflexivity |]); [intros ? [=] |].
  intros out' [= <-]. split.
  - intros items Hitems. rewrite Hitems. reflexivity.
  - intros [Hitems | Hitems]; rewrite Hitems; split; reflexivity.
Qed.

(** C3. A delete request makes one call to the store, a deletion on
    the condition that the item exists.  When the store reports that
    the condition failed the response is the 404 with the body
    [{error: Todo not found}]; when the deletion succeeds the
    response has status 204 and its body is the text of the empty
    object, [{}]. *)
Theorem delete_is_conditional event w ts w1 r w2 :
  httpMethod event = "DELETE" ->
  Date_now w = (ts, w1) ->
  let cmd := DeleteCommand TABLE_NAME (JObj [("todoId", path_id event)])
               "attribute_exists(todoId)" in
  dynamoDb_send cmd w1 = (r, w2) ->
  dynamo_calls (calls (snd (handle event w))) = [(cmd, r)] /\
  (forall e, r = inl e -> name e = "ConditionalCheckFailedException" ->
     fst (handle event w) = inr not_found /\
     statusCode not_found = 404%Z /\
     resultBody not_found = Some (error_text "Todo not found")) /\
  (forall out, r = inr out ->
     fst (handle event w) = inr (createResponse 204 (JObj [])) /\
     statusCode (createResponse 204 (JObj [])) = 204%Z /\
     resultBody (createResponse 204 (JObj [])) = Some "{}").
Proof.
  intros Hm Hts cmd Hsend.
  set (s1 := mkSt w1 [ConsoleLog (log_line ts "info" "Request received"
                        (JObj [("method", JStr (httpMethod event));
                               ("path", JStr (path event));
                               ("todoId", path_id event)]))]).
  pose proof (deleteTodo_run (path_id event) s1 Hsend) as Hrun.
  cbv zeta in Hrun. rewrite <- (route_DELETE event Hm) in Hrun.
  fold cmd in Hrun.
  destruct r as [e | out].
  - destruct (name e =? "ConditionalCheckFailedException") eqn:Hname.
    + destruct (handle_at event w Hts Hrun) as (Hresp & Hd & _).
      rewrite Hresp, Hd. split; [reflexivity |].
      split; [intros; repeat split; reflexivity | intros ? [=]].
    + destruct (handle_at event w Hts Hrun) as (Hresp & Hd & _).
      rewrite Hd. split; [reflexivity |].
      split; [| intros ? [=]].
      intros e' [= <-] He. rewrite He in Hname. discriminate.
  - destruct (handle_at event w Hts Hrun) as (Hresp & Hd & _).
    rewrite Hresp, Hd. cbn [calls]. rewrite dynamo_calls_app.
    split; [reflexivity |].
    split; [intros ? [=] | intros; repeat split; reflexivity].
Qed.

(** C2. An update request whose body defines at least one of [title],
    [description] and [completed] makes one call to the store, an
    update of the item under the identifier of the path that assigns
    the defined fields and then [updatedAt], the reading of the
    clock.  When the store signals a [ValidationException] the
    response is the 404 with the body [{error: Todo not found}];
    when the update succeeds the response has status 200 and its body
    is the image that the store returned.  When that image is the old
    item after the assignments, [updatedAt] is the reading of the
    clock, each defined field has the value of the body, and every
    other attribute has its old value. *)
Theorem update_sets_fields_and_updatedAt
    event w b vt vd vc ts w1 t w2 r w3 :
  httpMethod event = "PUT" ->
  JSON_parse (body_text event) = inr b ->
  get_prop b "title" = inr vt ->
  get_prop b "description" = inr vd ->
  get_prop b "completed" = inr vc ->
  defined vt || defined vd || defined vc = true ->
  Date_now w = (ts, w1) ->
  Date_now w1 = (t, w2) ->
  let cmd := update_command (path_id event) (update_parts vt vd vc) t in
  dynamoDb_send cmd w2 = (r, w3) ->
  dynamo_calls (calls (snd (handle event w))) = [(cmd, r)] /\
  Store.assignments cmd =
    Some (body_fields vt vd vc ++ [("updatedAt", JStr t)])%list /\
  (forall e, r = inl e -> name e = "ValidationException" ->
     fst (handle event w) = inr not_found /\
     statusCode not_found = 404%Z /\
     resultBody not_found = Some (error_text "Todo not found")) /\
  (forall out, r = inr out ->
     fst (handle event w) = inr (createResponse 200 (Attributes out)) /\
     statusCode (createResponse 200 (Attributes out)) = 200%Z /\
     resultBody (createResponse 200 (Attributes out)) =
       JSON_stringify (Attributes out) /\
     forall old,
       Store.all_new cmd (JObj old) = Some (Attributes out) ->
       get_prop (Attributes out) "updatedAt" = inr (JStr t) /\
       (forall k v, In (k, v) (body_fields vt vd vc) ->
          get_prop (Attributes out) k = inr v) /\
       (forall k, k <> "updatedAt" ->
          (forall v, ~ In (k, v) (body_fields vt vd vc)) ->
          get_prop (Attributes out) k = get_prop (JObj old) k)).
Proof.
  intros Hm Hb Ht Hd Hc Hsome Hts Hnow cmd Hsend.
  set (s1 := mkSt w1 [ConsoleLog (log_line ts "info" "Request received"
                        (JObj [("method", JStr (httpMethod event));
                               ("path", JStr (path event));
                               ("todoId", path_id event)]))]).
  pose proof (updateTodo_valid (path_id event) event s1
                Hb Ht Hd Hc Hsome Hnow Hsend) as Hrun.
  cbv zeta in Hrun. rewrite <- (route_PUT event Hm) in Hrun.
  fold cmd in Hrun.
  assert (Hassign : Store.assignments cmd =
            Some (body_fields vt vd vc ++ [("updatedAt", JStr t)])%list)
    by apply update_command_assignments.
  assert (Hcalls : dynamo_calls (calls (snd (handle event w))) = [(cmd, r)]).
  { destruct r as [e | out];
      [destruct (name e =? "ValidationException") |];
      destruct (handle_at event w Hts Hrun) as (_ & Hdc & _);
      rewrite Hdc; cbn [calls]; rewrite ?dynamo_calls_app; reflexivity. }
  split; [exact Hcalls |]. split; [exact Hassign |]. split.
  - intros e -> Hname. rewrite Hname in Hrun. cbn in Hrun.
    destruct (handle_at event w Hts Hrun) as (Hresp & _).
    rewrite Hresp. repeat split; reflexivity.
  - intros out ->.
    destruct (handle_at event w Hts Hrun) as (Hresp & _).
    rewrite Hresp. split; [reflexivity |]. split; [reflexivity |].
    split; [reflexivity |].
    intros old Hnew. unfold Store.all_new in Hnew. rewrite Hassign in Hnew.
    injection Hnew as Hnew. rewrite <- Hnew. cbn [Store.props_of get_prop].
    split; [| split].
    + rewrite assign_spec, rev_app_distr. reflexivity.
    + intros k v Hin. rewrite assign_spec, rev_app_distr. cbn [rev app assoc].
      apply body_fields_spec in Hin.
      unfold body_fields.
      destruct Hin as [(-> & -> & Hv) | [(-> & -> & Hv) | (-> & -> & Hv)]];
        destruct vt, vd, vc; try congruence; reflexivity.
    + intros k Hk Hnot. rewrite assign_spec, rev_app_distr.
      cbn [rev app assoc].
      destruct ("updatedAt" =? k) eqn:E;
        [apply String.eqb_eq in E; congruence |].
      rewrite assoc_rev_none; [reflexivity |].
      destruct (assoc k (body_fields vt vd vc)) as [v |] eqn:Ha;
        [| reflexivity].
      exfalso. apply (Hnot v). clear - Ha.
      induction (body_fields vt vd vc) as [| [k' v'] l IH];
        simpl in *; [discriminate |].
      destruct (k' =? k) eqn:E.
      * apply String.eqb_eq in E. left. congruence.
      * right. auto.
Qed.

Lemma defined_iff v : defined v = true <-> v <> JUndefined.
Proof. destruct v; simpl; split; congruence. Qed.

(** A clause is pushed exactly when its field is not [undefined]. *)
Lemma update_parts_clauses vt vd vc :
  let parts := update_parts vt vd vc in
  (In "#title = :title" (updateExpression parts) <-> vt <> JUndefined) /\
  (In "description = :description" (updateExpression parts)
     <-> vd <> JUndefined) /\
  (In "completed = :completed" (updateExpression parts)
     <-> vc <> JUndefined).
Proof.
  cbv zeta. rewrite <- !defined_iff. unfold update_parts.
  destruct (defined vt), (defined vd), (defined vc); simpl;
    repeat split; intros H; try reflexivity; try discriminate;
    repeat (destruct H as [H | H]; try discriminate); tauto.
Qed.

(** C5. On an update request, each of [title], [description] and
    [completed] gets a clause, and an assignment of the value that
    the body gives it, exactly when the body defines it, whatever
    the value; when the body defines none of them the response is
    the 400 with the body [{error: No valid fields to update}] and
    no call is made to the store; otherwise the one call to the store
    assigns the defined fields and [updatedAt]. *)
Theorem update_takes_the_defined_fields event w b vt vd vc ts w1 :
  httpMethod event = "PUT" ->
  JSON_parse (body_text event) = inr b ->
  get_prop b "title" = inr vt ->
  get_prop b "description" = inr vd ->
  get_prop b "completed" = inr vc ->
  Date_now w = (ts, w1) ->
  let parts := update_parts vt vd vc in
  (In "#title = :title" (updateExpression parts) <-> vt <> JUndefined) /\
  (In "description = :description" (updateExpression parts)
     <-> vd <> JUndefined) /\
  (In "completed = :completed" (updateExpression parts)
     <-> vc <> JUndefined) /\
  (forall k v,
      In (k, v) (body_fields vt vd vc) <->
      (k = "title" /\ v = vt /\ vt <> JUndefined) \/
      (k = "description" /\ v = vd /\ vd <> JUndefined) \/
      (k = "completed" /\ v = vc /\ vc <> JUndefined)) /\
  (vt = JUndefined /\ vd = JUndefined /\ vc = JUndefined ->
     fst (handle event w) =
       inr (createResponse 400 (error_body "No valid fields to update")) /\
     resultBody
       (createResponse 400 (error_body "No valid fields to update")) =
       Some (error_text "No valid fields to update") /\
     dynamo_calls (calls (snd (handle event w))) = []) /\
  (vt <> JUndefined \/ vd <> JUndefined \/ vc <> JUndefined ->
     forall t w2 r w3,
       Date_now w1 = (t, w2) ->
       let cmd := update_command (path_id event) parts t in
       dynamoDb_send cmd w2 = (r, w3) ->
       dynamo_calls (calls (snd (handle event w))) = [(cmd, r)] /\
       Store.assignments cmd =
         Some (body_fields vt vd vc ++ [("updatedAt", JStr t)])%list).
Proof.
  intros Hm Hb Ht Hd Hc Hts parts.
  destruct (update_parts_clauses vt vd vc) as (H1 & H2 & H3).
  split; [exact H1 |]. split; [exact H2 |]. split; [exact H3 |].
  split; [intros k v; apply body_fields_spec |].
  set (s1 := mkSt w1 [ConsoleLog (log_line ts "info" "Request received"
                        (JObj [("method", JStr (httpMethod event));
                               ("path", JStr (path event));
                               ("todoId", path_id event)]))]).
  split.
  - intros (-> & -> & ->).
    pose proof (updateTodo_invalid (path_id event) event s1 Hb Ht Hd Hc
                  eq_refl) as Hrun.
    rewrite <- (route_PUT event Hm) in Hrun.
    destruct (handle_at event w Hts Hrun) as (Hresp & Hdc & _).
    rewrite Hresp, Hdc. repeat split; reflexivity.
  - intros Hsome t w2 r w3 Hnow cmd Hsend.
    assert (Hdef : defined vt || defined vd || defined vc = true).
    { rewrite !orb_true_iff, !defined_iff. tauto. }
    pose proof (updateTodo_valid (path_id event) event s1
                  Hb Ht Hd Hc Hdef Hnow Hsend) as Hrun.
    cbv zeta in Hrun. rewrite <- (route_PUT event Hm) in Hrun.
    fold parts in Hrun. fold cmd in Hrun.
    split; [| apply update_command_assignments].
    destruct r as [e | out];
      [destruct (name e =? "ValidationException") |];
      destruct (handle_at event w Hts Hrun) as (_ & Hdc & _);
      rewrite Hdc; cbn [calls]; rewrite ?dynamo_calls_app; reflexivity.
Qed.

(** C10. A PUT or DELETE request whose path parameters hold no
    identifier is not turned away by the routing, which hands
    [undefined] to the update or delete handler: a DELETE sends the
    store a deletion, and a PUT whose body defines one of the three
    fields sends it an update, under the key [{todoId: undefined}],
    and the response is made from the reply of the store. *)
Theorem missing_identifier_reaches_the_store event w ts w1 :
  path_id event = JUndefined ->
  Date_now w = (ts, w1) ->
  (httpMethod event = "DELETE" -> route event = deleteTodo JUndefined) /\
  (httpMethod event = "PUT" -> route event = updateTodo JUndefined event) /\
  (httpMethod event = "DELETE" ->
   forall r w2,
     let cmd := DeleteCommand TABLE_NAME (JObj [("todoId", JUndefined)])
                  "attribute_exists(todoId)" in
     dynamoDb_send cmd w1 = (r, w2) ->
     dynamo_calls (calls (snd (handle event w))) = [(cmd, r)] /\
     fst (handle event w) =
       inr (match r with
            | inr _ => createResponse 204 (JObj [])
            | inl e =>
                if name e =? "ConditionalCheckFailedException"
                then not_found else internal_error
            end)) /\
  (httpMethod event = "PUT" ->
   forall b vt vd vc t w2 r w3,
     JSON_parse (body_text event) = inr b ->
     get_prop b "title" = inr vt ->
     get_prop b "description" = inr vd ->
     get_prop b "completed" = inr vc ->
     defined vt || defined vd || defined vc = true ->
     Date_now w1 = (t, w2) ->
     let cmd := update_command JUndefined (update_parts vt vd vc) t in
     dynamoDb_send cmd w2 = (r, w3) ->
     (exists expr values names,
        cmd = UpdateCommand TABLE_NAME (JObj [("todoId", JUndefined)])
                expr values names "ALL_NEW") /\
     dynamo_calls (calls (snd (handle event w))) = [(cmd, r)] /\
     fst (handle event w) =
       inr (match r with
            | inr out => createResponse 200 (Attributes out)
            | inl e =>
                if name e =? "ValidationException"
                then not_found else internal_error
            end)).
Proof.
  intros Hid Hts.
  set (s1 := mkSt w1 [ConsoleLog (log_line ts "info" "Request received"
                        (JObj [("method", JStr (httpMethod event));
                               ("path", JStr (path event));
                               ("todoId", path_id event)]))]).
  split; [intros Hm; rewrite <- Hid; apply route_DELETE, Hm |].
  split; [intros Hm; rewrite <- Hid; apply route_PUT, Hm |].
  split.
  - intros Hm r w2 cmd Hsend.
    pose proof (deleteTodo_run JUndefined s1 Hsend) as Hrun.
    cbv zeta in Hrun. rewrite <- Hid in Hrun at 1.
    rewrite <- (route_DELETE event Hm) in Hrun. fold cmd in Hrun.
    destruct r as [e | out];
      [destruct (name e =? "ConditionalCheckFailedException") |];
      destruct (handle_at event w Hts Hrun) as (Hresp & Hdc & _);
      rewrite Hresp, Hdc; cbn [calls]; rewrite ?dynamo_calls_app;
      split; reflexivity.
  - intros Hm b vt vd vc t w2 r w3 Hb Ht Hd Hc Hdef Hnow cmd Hsend.
    split; [apply update_command_key |].
    pose proof (updateTodo_valid JUndefined event s1
                  Hb Ht Hd Hc Hdef Hnow Hsend) as Hrun.
    cbv zeta in Hrun. rewrite <- Hid in Hrun at 1.
    rewrite <- (route_PUT event Hm) in Hrun. fold cmd in Hrun.
    destruct r as [e | out];
      [destruct (name e =? "ValidationException") |];
      destruct (handle_at event w Hts Hrun) as (Hresp & Hdc & _);
      rewrite Hresp, Hdc; cbn [calls]; rewrite ?dynamo_calls_app;
      split; reflexivity.
Qed.

(** The two routes that no claim is about: a read by identifier and a
    method that the [switch] does not know. *)
Lemma get_returns_item_or_404 event w ts w1 r w2 :
  httpMethod event = "GET" ->
  truthy (path_id event) = true ->
  Date_now w = (ts, w1) ->
  let cmd := GetCommand TABLE_NAME (JObj [("todoId", path_id event)]) in
  dynamoDb_send cmd w1 = (r, w2) ->
  dynamo_calls (calls (snd (handle event w))) = [(cmd, r)] /\
  forall out, r = inr out ->
    fst (handle event w) =
      inr (if truthy (Item out) then createResponse 200 (Item out)
           else not_found).
Proof.
  intros Hm Hid Hts cmd Hsend.
  set (s1 := mkSt w1 [ConsoleLog (log_line ts "info" "Request received"
                        (JObj [("method", JStr (httpMethod event));
                               ("path", JStr (path event));
                               ("todoId", path_id event)]))]).
  pose proof (getTodo_run (path_id event) s1 Hsend) as Hrun.
  cbv zeta in Hrun. rewrite <- (route_GET_item event Hm Hid) in Hrun.
  fold cmd in Hrun.
  destruct r as [e | out]; [| destruct (truthy (Item out)) eqn:Hitem];
    destruct (handle_at event w Hts Hrun) as (Hresp & Hd & _);
    rewrite Hresp, Hd; cbn [calls]; rewrite ?dynamo_calls_app;
    (split; [reflexivity |]); intros out' [=]; subst;
    rewrite ?Hitem; reflexivity.
Qed.

Lemma unsupported_method_is_405 event w :
  (httpMethod event =? "POST") = false ->
  (httpMethod event =? "GET") = false ->
  (httpMethod event =? "PUT") = false ->
  (httpMethod event =? "DELETE") = false ->
  fst (handle event w) =
    inr (createResponse 405 (error_body "Method not allowed")) /\
  dynamo_calls (calls (snd (handle event w))) = [].
Proof.
  intros H1 H2 H3 H4.
  pose proof (route_other event (entered event (mkSt w [])) H1 H2 H3 H4)
    as Hrun.
  destruct (handle_of_route event w Hrun) as (Hresp & Hd & _).
  rewrite Hresp, Hd. split; reflexivity.
Qed.

End Dispatcher.

(* ===================================================================== *)
(** ** The properties on the examples *)
(* ===================================================================== *)

Section OnExamples.
Import Mock Examples.

Lemma create_without_title_is_rejected_example :
  fst (handle create_event_no_title world_ok) =
    inr (createResponse 400 (error_body "Title is required")) /\
  resultBody (createResponse 400 (error_body "Title is required")) =
    Some (error_text "Title is required") /\
  dynamo_calls (calls (snd (handle create_event_no_title world_ok))) = [] /\
  metric_calls (calls (snd (handle create_event_no_title world_ok))) = [].
Proof.
  eapply (@create_without_title_is_rejected World runtime
            create_event_no_title world_ok); reflexivity.
Defined.

(** The create request of the test file, in a world where everything
    works: the 201 carries the item that was written. *)
Lemma create_returns_the_new_item_example :
  fst (handle create_event world_ok) = inr (createResponse 201 created_item)
  /\ dynamo_calls (calls (snd (handle create_event world_ok))) =
     [(PutCommand "test-todos-table" created_item, inr empty_output)].
Proof.
  destruct (@create_returns_the_new_item World runtime
              create_event world_ok
              (JObj [("title", JStr "Test Todo")]) (JStr "Test Todo")
              JUndefined
              "2024-01-01T00:00:00.000Z"
              (mkWorld (resolved empty_output) (inr tt) 1 1 0)
              "id-0"
              (mkWorld (resolved empty_output) (inr tt) 1 1 1)
              "2024-01-01T00:00:00.001Z"
              (mkWorld (resolved empty_output) (inr tt) 2 1 1)
              "2024-01-01T00:00:00.002Z"
              (mkWorld (resolved empty_output) (inr tt) 3 1 1)
              empty_output
              (mkWorld (resolved empty_output) (inr tt) 3 1 1)
              eq_refl eq_refl eq_refl eq_refl eq_refl eq_refl eq_refl
              eq_refl eq_refl eq_refl)
    as (Hresp & _ & _ & Hcalls).
  split; [exact Hresp | exact Hcalls].
Defined.

(** C1, as it is stated, fails: with a clock that moves between two
    readings the item of the 201 has a [createdAt] that differs from
    its [updatedAt], and a description that the body gives as [false]
    is stored as the empty string. *)
Lemma create_item_counterexample :
  fst (handle create_event_false_description world_ok) =
    inr (createResponse 201 created_item) /\
  dynamo_calls
    (calls (snd (handle create_event_false_description world_ok))) =
    [(PutCommand "test-todos-table" created_item, inr empty_output)] /\
  get_prop created_item "createdAt" <> get_prop created_item "updatedAt" /\
  JSON_parse (body_text create_event_false_description) =
    inr (JObj [("title", JStr "Test Todo"); ("description", JBool false)]) /\
  get_prop created_item "description" = inr (JStr EmptyString) /\
  get_prop created_item "description" <> inr (JBool false).
Proof.
  repeat split; try reflexivity; cbn; discriminate.
Qed.

(** With the metrics sink down the create request still gets its 201,
    and the failure is on the console. *)
Lemma metric_failure_does_not_fail_create_example :
  fst (handle create_event world_sink_down) =
    inr (createResponse 201 created_item) /\
  statusCode (createResponse 201 created_item) = 201%Z /\
  metric_calls (calls (snd (handle create_event world_sink_down))) =
    [(created_metric "2024-01-01T00:00:00.003Z", inl sink_error)] /\
  In (log_line "2024-01-01T00:00:00.004Z" "error" "Failed to put metric"
        (JObj [("error", JStr "metrics sink is down")]))
     (console_lines (calls (snd (handle create_event world_sink_down)))).
Proof.
  exact (@metric_failure_does_not_fail_create World runtime
           create_event world_sink_down
           (JObj [("title", JStr "Test Todo")]) (JStr "Test Todo")
           JUndefined
           "2024-01-01T00:00:00.000Z"
           (mkWorld (resolved empty_output) (inl sink_error) 1 1 0)
           "id-0"
           (mkWorld (resolved empty_output) (inl sink_error) 1 1 1)
           "2024-01-01T00:00:00.001Z"
           (mkWorld (resolved empty_output) (inl sink_error) 2 1 1)
           "2024-01-01T00:00:00.002Z"
           (mkWorld (resolved empty_output) (inl sink_error) 3 1 1)
           empty_output
           (mkWorld (resolved empty_output) (inl sink_error) 3 1 1)
           "2024-01-01T00:00:00.003Z"
           (mkWorld (resolved empty_output) (inl sink_error) 4 1 1)
           sink_error
           (mkWorld (resolved empty_output) (inl sink_error) 4 1 1)
           "2024-01-01T00:00:00.004Z"
           (mkWorld (resolved empty_output) (inl sink_error) 5 1 1)
           eq_refl eq_refl eq_refl eq_refl eq_refl eq_refl eq_refl
           eq_refl eq_refl eq_refl eq_refl eq_refl eq_refl).
Defined.

(** The list request of the test file: the two items that the store
    returned come back under [todos]. *)
Lemma list_returns_the_scanned_items_example :
  dynamo_calls (calls (snd (handle list_event world_two_todos))) =
    [(ScanCommand "test-todos-table",
      inr (mkOutput JUndefined (JArr two_todos) JUndefined))] /\
  fst (handle list_event world_two_todos) =
    inr (createResponse 200 (JObj [("todos", JArr two_todos)])).
Proof.
  destruct (@list_returns_the_scanned_items World runtime
              list_event world_two_todos
              "2024-01-01T00:00:00.000Z"
              (mkWorld (dynamo_reply world_two_todos) (inr tt) 1 1 0)
              (dynamo_reply world_two_todos)
              (mkWorld (dynamo_reply world_two_todos) (inr tt) 1 1 0)
              eq_refl eq_refl eq_refl eq_refl)
    as (Hcalls & Hok).
  split; [exact Hcalls |].
  exact (proj1 (Hok _ eq_refl) two_todos eq_refl).
Defined.

(** The two delete requests of the test file. *)
Lemma delete_is_conditional_example :
  fst (handle delete_event world_missing) = inr not_found /\
  dynamo_calls (calls (snd (handle delete_event world_missing))) =
    [(DeleteCommand "test-todos-table" (JObj [("todoId", JStr "123")])
        "attribute_exists(todoId)",
      inl condition_failed)].
Proof.
  destruct (@delete_is_conditional World runtime
              delete_event world_missing
              "2024-01-01T00:00:00.000Z"
              (mkWorld (rejected condition_failed) (inr tt) 1 1 0)
              (rejected condition_failed)
              (mkWorld (rejected condition_failed) (inr tt) 1 1 0)
              eq_refl eq_refl eq_refl)
    as (Hcalls & Hmissing & _).
  split; [| exact Hcalls].
  exact (proj1 (Hmissing condition_failed eq_refl eq_refl)).
Defined.

(** C3, as it is stated, fails: the body of the 204 is not empty, it
    is the two characters of the empty object. *)
Lemma delete_body_counterexample :
  exists resp,
    fst (handle delete_event world_ok) = inr resp /\
    statusCode resp = 204%Z /\
    resultBody resp = Some "{}" /\
    resultBody resp <> Some EmptyString /\
    resultBody resp <> None.
Proof.
  exists (createResponse 204 (JObj [])).
  repeat split; try reflexivity; cbn; discriminate.
Qed.

Lemma update_example_image :
  Store.all_new
    (update_command (JStr "123")
       (update_parts (JStr EmptyString) JUndefined (JBool false))
       "2024-01-01T00:00:00.001Z")
    (JObj old_item) = Some new_item.
Proof. reflexivity. Qed.

(** The update of the examples: the title becomes the empty string,
    [completed] becomes [false], [updatedAt] is the reading of the
    clock, and the description, which the body leaves out, is kept. *)
Lemma update_sets_fields_and_updatedAt_example :
  fst (handle update_event world_updated) =
    inr (createResponse 200 new_item) /\
  get_prop new_item "updatedAt" = inr (JStr "2024-01-01T00:00:00.001Z") /\
  get_prop new_item "title" = inr (JStr EmptyString) /\
  get_prop new_item "description" = get_prop (JObj old_item) "description"
  /\ get_prop new_item "createdAt" = get_prop (JObj old_item) "createdAt".
Proof.
  destruct (@update_sets_fields_and_updatedAt World runtime
              update_event world_updated
              (JObj [("title", JStr EmptyString);
                     ("completed", JBool false)])
              (JStr EmptyString) JUndefined (JBool false)
              "2024-01-01T00:00:00.000Z"
              (mkWorld (dynamo_reply world_updated) (inr tt) 1 1 0)
              "2024-01-01T00:00:00.001Z"
              (mkWorld (dynamo_reply world_updated) (inr tt) 2 1 0)
              (dynamo_reply world_updated)
              (mkWorld (dynamo_reply world_updated) (inr tt) 2 1 0)
              eq_refl eq_refl eq_refl eq_refl eq_refl eq_refl eq_refl
              eq_refl eq_refl)
    as (_ & _ & _ & Hok).
  destruct (Hok _ eq_refl) as (Hresp & _ & _ & Himage).
  destruct (Himage old_item update_example_image) as (Hu & Hset & Hkeep).
  split; [exact Hresp |]. split; [exact Hu |].
  split; [apply Hset; left; reflexivity |].
  split; apply Hkeep; try discriminate;
    intros v [H | [H | []]]; discriminate.
Defined.

(** The update of the examples takes the empty title and the [false]
    of [completed], and not the description. *)
Lemma update_takes_the_defined_fields_example :
  Store.assignments
    (update_command (JStr "123")
       (update_parts (JStr EmptyString) JUndefined (JBool false))
       "2024-01-01T00:00:00.001Z") =
    Some [("title", JStr EmptyString); ("completed", JBool false);
          ("updatedAt", JStr "2024-01-01T00:00:00.001Z")] /\
  dynamo_calls (calls (snd (handle update_event world_updated))) =
    [(update_command (JStr "123")
        (update_parts (JStr EmptyString) JUndefined (JBool false))
        "2024-01-01T00:00:00.001Z",
      dynamo_reply world_updated)].
Proof.
  destruct (@update_takes_the_defined_fields World runtime
              update_event world_updated
              (JObj [("title", JStr EmptyString);
                     ("completed", JBool false)])
              (JStr EmptyString) JUndefined (JBool false)
              "2024-01-01T00:00:00.000Z"
              (mkWorld (dynamo_reply world_updated) (inr tt) 1 1 0)
              eq_refl eq_refl eq_refl eq_refl eq_refl eq_refl)
    as (_ & _ & _ & _ & _ & Hsome).
  assert (Hdef : JStr EmptyString <> JUndefined \/
                 JUndefined <> JUndefined \/ JBool false <> JUndefined)
    by (left; discriminate).
  destruct (Hsome Hdef
              "2024-01-01T00:00:00.001Z"
              (mkWorld (dynamo_reply world_updated) (inr tt) 2 1 0)
              (dynamo_reply world_updated)
              (mkWorld (dynamo_reply world_updated) (inr tt) 2 1 0)
              eq_refl eq_refl)
    as (Hcalls & Hassign).
  split; [exact Hassign | exact Hcalls].
Defined.

(** A DELETE without an identifier reaches the store, under the key
    [{todoId: undefined}]. *)
Lemma missing_identifier_reaches_the_store_example :
  (dynamo_calls (calls (snd (handle delete_event_no_id world_ok))) =
     [(DeleteCommand "test-todos-table" (JObj [("todoId", JUndefined)])
         "attribute_exists(todoId)",
       inr empty_output)] /\
   fst (handle delete_event_no_id world_ok) =
     inr (createResponse 204 (JObj []))) /\
  (dynamo_calls (calls (snd (handle update_event_no_id world_ok))) =
     [(UpdateCommand "test-todos-table" (JObj [("todoId", JUndefined)])
         "SET completed = :completed, updatedAt = :updatedAt"
         (JObj [(":completed", JBool true);
                (":updatedAt", JStr "2024-01-01T00:00:00.001Z")])
         JUndefined "ALL_NEW",
       inr empty_output)] /\
   fst (handle update_event_no_id world_ok) =
     inr (createResponse 200 JUndefined)).
Proof.
  split.
  - destruct (@missing_identifier_reaches_the_store World runtime
                delete_event_no_id world_ok
                "2024-01-01T00:00:00.000Z"
                (mkWorld (resolved empty_output) (inr tt) 1 1 0)
                eq_refl eq_refl)
      as (_ & _ & Hdelete & _).
    exact (Hdelete eq_refl (resolved empty_output)
             (mkWorld (resolved empty_output) (inr tt) 1 1 0) eq_refl).
  - destruct (@missing_identifier_reaches_the_store World runtime
                update_event_no_id world_ok
                "2024-01-01T00:00:00.000Z"
                (mkWorld (resolved empty_output) (inr tt) 1 1 0)
                eq_refl eq_refl)
      as (_ & _ & _ & Hupdate).
    destruct (Hupdate eq_refl
                (JObj [("completed", JBool true)])
                JUndefined JUndefined (JBool true)
                "2024-01-01T00:00:00.001Z"
                (mkWorld (resolved empty_output) (inr tt) 2 1 0)
                (resolved empty_output)
                (mkWorld (resolved empty_output) (inr tt) 2 1 0)
                eq_refl eq_refl eq_refl eq_refl eq_refl eq_refl eq_refl)
      as (_ & Hcalls & Hresp).
    split; [exact Hcalls | exact Hresp].
Defined.

(** A body that is not JSON, and a store that fails, as in the last
    test of the test file: both end in the 500. *)
Lemma failures_become_internal_error_example :
  fst (handle create_event_malformed world_ok) = inr internal_error /\
  fst (handle list_event world_broken) = inr internal_error /\
  resultBody internal_error = Some (error_text "Internal server error").
Proof.
  split; [| split].
  - destruct (@failures_become_internal_error World runtime
                create_event_malformed world_ok)
      as (_ & _ & Hparse & _).
    exact (Hparse SyntaxError (or_introl eq_refl) eq_refl).
  - destruct (@failures_become_internal_error World runtime
                list_event world_broken)
      as (_ & _ & _ & Hstore & _).
    apply (Hstore (ScanCommand "test-todos-table") database_error).
    + left. reflexivity.
    + reflexivity.
  - reflexivity.
Defined.

End OnExamples.


(* ===================================================================== *)
(** ** Every request ends in one of the outcomes *)
(* ===================================================================== *)

Section Classification.
Context {W : Type} {RT : Runtime W}.

Implicit Types (s : St W) (w : W) (event : APIGatewayProxyEvent).

(** A value has properties to read or it has none: reading cannot
    succeed for one name and throw for another. *)
Lemma get_prop_clash b k v k' e :
  get_prop b k = inr v -> get_prop b k' = inl e -> False.
Proof. destruct b; simpl; intros H H'; discriminate. Qed.

Ltac run_cases :=
  repeat first
    [ rewrite log_run
    | rewrite putMetric_run
    | rewrite update_parts_empty
    | progress cbv zeta
    | progress cbn [world calls fst snd negb]
    | match goal with
      | |- context [JSON_parse ?x] => destruct (JSON_parse x) eqn:?
      | |- context [get_prop ?v ?k] => destruct (get_prop v k) eqn:?
      | |- context [negb (?a || ?b || ?c)] => destruct (a || b || c) eqn:?
      | |- context [negb (truthy ?v)] => destruct (truthy v) eqn:?
      | |- context [uuidv4 ?w] => destruct (uuidv4 w)
      | |- context [Date_now ?w] => destruct (Date_now w)
      | |- context [dynamoDb_send ?c ?w] =>
          destruct (dynamoDb_send c w) as [[? | ?] ?]
      | |- context [cloudWatch_send ?c ?w] =>
          destruct (cloudWatch_send c w) as [[? | ?] ?]
      | |- context [if ?b then _ else _] => destruct b eqn:?
      end ].

Ltac outcome H0 H1 :=
  cbn [fst snd calls];
  rewrite ?dynamo_calls_app, ?metric_calls_app, ?H0, ?H1;
  cbn [dynamo_calls metric_calls app];
  try (exfalso; eapply get_prop_clash; eassumption);
  solve [econstructor; eauto].

Lemma createTodo_outcome event s :
  httpMethod event = "POST" ->
  dynamo_calls (calls s) = [] ->
  metric_calls (calls s) = [] ->
  Outcome event (fst (createTodo event s))
    (dynamo_calls (calls (snd (createTodo event s))))
    (metric_calls (calls (snd (createTodo event s)))).
Proof.
  intros Hm H0 H1.
  unfold createTodo, bind, parse, prop, lift, uuid, now, send, record, ret.
  run_cases; outcome H0 H1.
Qed.

Lemma getTodo_outcome event s :
  httpMethod event = "GET" ->
  truthy (path_id event) = true ->
  dynamo_calls (calls s) = [] ->
  metric_calls (calls s) = [] ->
  Outcome event (fst (getTodo (path_id event) s))
    (dynamo_calls (calls (snd (getTodo (path_id event) s))))
    (metric_calls (calls (snd (getTodo (path_id event) s)))).
Proof.
  intros Hm Hid H0 H1.
  unfold getTodo, bind, send, record, ret.
  run_cases; outcome H0 H1.
Qed.

Lemma listTodos_outcome event s :
  httpMethod event = "GET" ->
  truthy (path_id event) = false ->
  dynamo_calls (calls s) = [] ->
  metric_calls (calls s) = [] ->
  Outcome event (fst (listTodos s))
    (dynamo_calls (calls (snd (listTodos s))))
    (metric_calls (calls (snd (listTodos s)))).
Proof.
  intros Hm Hid H0 H1.
  unfold listTodos, bind, send, record, ret.
  run_cases; outcome H0 H1.
Qed.

Lemma updateTodo_outcome event s :
  httpMethod event = "PUT" ->
  dynamo_calls (calls s) = [] ->
  metric_calls (calls s) = [] ->
  Outcome event (fst (updateTodo (path_id event) event s))
    (dynamo_calls (calls (snd (updateTodo (path_id event) event s))))
    (metric_calls (calls (snd (updateTodo (path_id event) event s)))).
Proof.
  intros Hm H0 H1.
  unfold updateTodo, try_catch, bind, parse, prop, lift, now, send, record,
    ret, throw.
  run_cases; outcome H0 H1.
Qed.

Lemma deleteTodo_outcome event s :
  httpMethod event = "DELETE" ->
  dynamo_calls (calls s) = [] ->
  metric_calls (calls s) = [] ->
  Outcome event (fst (deleteTodo (path_id event) s))
    (dynamo_calls (calls (snd (deleteTodo (path_id event) s))))
    (metric_calls (calls (snd (deleteTodo (path_id event) s)))).
Proof.
  intros Hm H0 H1.
  unfold deleteTodo, try_catch, bind, send, record, ret, throw.
  run_cases; outcome H0 H1.
Qed.

Lemma route_outcome event s :
  dynamo_calls (calls s) = [] ->
  metric_calls (calls s) = [] ->
  Outcome event (fst (route event s))
    (dynamo_calls (calls (snd (route event s))))
    (metric_calls (calls (snd (route event s)))).
Proof.
  intros H0 H1. unfold route.
  destruct (String.eqb_spec (httpMethod event) "POST") as [Hpost | Hpost];
    [apply createTodo_outcome; assumption |].
  destruct (String.eqb_spec (httpMethod event) "GET") as [Hget | Hget].
  { destruct (truthy (path_id event)) eqn:Hid;
      [apply getTodo_outcome | apply listTodos_outcome]; assumption. }
  destruct (String.eqb_spec (httpMethod event) "PUT") as [Hput | Hput];
    [apply updateTodo_outcome; assumption |].
  destruct (String.eqb_spec (httpMethod event) "DELETE") as [Hdel | Hdel];
    [apply deleteTodo_outcome; assumption |].
  cbn [fst snd ret]. unfold ret. cbn [fst snd]. rewrite H0, H1.
  apply O_not_allowed; assumption.
Qed.

(** The response of a request, its calls to the store and its calls to
    the sink are those of one of the outcomes. *)
Lemma handle_outcome event w :
  exists r,
    Outcome event r
      (dynamo_calls (calls (snd (handle event w))))
      (metric_calls (calls (snd (handle event w)))) /\
    fst (handle event w) = inr (response_of r).
Proof.
  destruct (route event (entered event (mkSt w []))) as [r s'] eqn:Hr.
  destruct (handle_of_route event w Hr) as (Hresp & Hd & Hmc).
  exists r. rewrite Hd, Hmc, Hresp. split; [| reflexivity].
  pose proof (@route_outcome event (entered event (mkSt w []))
                (proj1 (entered_calls event w))
                (proj2 (entered_calls event w))) as Ho.
  rewrite Hr in Ho. exact Ho.
Qed.

End Classification.

(* ===================================================================== *)
(** ** The trace is only written *)
(* ===================================================================== *)

Section Framing.
Context {W : Type} {RT : Runtime W}.

Implicit Types (s : St W) (w : W) (event : APIGatewayProxyEvent).

Lemma framed_ret (A : Type) (a : A) : framed (ret (W := W) a).
Proof. intros w tr. unfold ret. cbn. rewrite app_nil_r. reflexivity. Qed.

Lemma framed_throw (A : Type) (e : JsError) :
  framed (throw (W := W) (A := A) e).
Proof. intros w tr. unfold throw. cbn. rewrite app_nil_r. reflexivity. Qed.

Lemma framed_lift (A : Type) (r : JsError + A) : framed (lift (W := W) r).
Proof. intros w tr. unfold lift. cbn. rewrite app_nil_r. reflexivity. Qed.

Lemma framed_uuid : framed uuid.
Proof.
  intros w tr. unfold uuid. cbn [world calls].
  destruct (uuidv4 w). cbn. rewrite app_nil_r. reflexivity.
Qed.

Lemma framed_now : framed now.
Proof.
  intros w tr. unfold now. cbn [world calls].
  destruct (Date_now w). cbn. rewrite app_nil_r. reflexivity.
Qed.

Lemma framed_send cmd : framed (send cmd).
Proof.
  intros w tr. unfold send, record. cbn [world calls].
  destruct (dynamoDb_send cmd w). reflexivity.
Qed.

Lemma framed_send_metric cmd : framed (send_metric cmd).
Proof.
  intros w tr. unfold send_metric, record. cbn [world calls].
  destruct (cloudWatch_send cmd w). reflexivity.
Qed.

Lemma framed_console_log line : framed (console_log (W := W) line).
Proof. intros w tr. reflexivity. Qed.

Lemma framed_bind (A B : Type) (m : M W A) (k : A -> M W B) :
  framed m -> (forall a, framed (k a)) -> framed (bind m k).
Proof.
  intros Hm Hk w tr. unfold bind. rewrite (Hm w tr).
  destruct (m (mkSt w [])) as [[e | a] [w' c]]; cbn [fst snd world calls].
  - reflexivity.
  - rewrite (Hk a w' (tr ++ c)%list), (Hk a w' c).
    cbn [fst snd world calls]. rewrite app_assoc. reflexivity.
Qed.

Lemma framed_try_catch (A : Type) (m : M W A) (h : JsError -> M W A) :
  framed m -> (forall e, framed (h e)) -> framed (try_catch m h).
Proof.
  intros Hm Hh w tr. unfold try_catch. rewrite (Hm w tr).
  destruct (m (mkSt w [])) as [[e | a] [w' c]]; cbn [fst snd world calls].
  - rewrite (Hh e w' (tr ++ c)%list), (Hh e w' c).
    cbn [fst snd world calls]. rewrite app_assoc. reflexivity.
  - reflexivity.
Qed.

Ltac frame :=
  repeat first
    [ apply framed_bind
    | apply framed_try_catch
    | apply framed_ret
    | apply framed_throw
    | apply framed_lift
    | apply framed_uuid
    | apply framed_now
    | apply framed_send
    | apply framed_send_metric
    | apply framed_console_log
    | progress cbv beta zeta
    | match goal with
      | |- forall _, _ => intro
      | |- framed (if ?b then _ else _) => destruct b
      end ].

Lemma framed_log level msg data : framed (log level msg data).
Proof. unfold log. frame. Qed.

Lemma framed_putMetric metricName value :
  framed (putMetric metricName value).
Proof. unfold putMetric. frame; apply framed_log. Qed.

Lemma framed_route event : framed (route event).
Proof.
  unfold route, createTodo, getTodo, listTodos, updateTodo, deleteTodo,
    parse, prop.
  frame; first [apply framed_log | apply framed_putMetric].
Qed.

End Framing.

(* ===================================================================== *)
(** ** What holds of every request *)
(* ===================================================================== *)

Section Invariants.
Context {W : Type} {RT : Runtime W}.

Implicit Types (s : St W) (w : W) (event : APIGatewayProxyEvent).

Ltac by_outcome event w :=
  let r := fresh "r" in
  let Ho := fresh "Ho" in
  let Hr := fresh "Hr" in
  let d := fresh "d" in
  let m := fresh "m" in
  destruct (handle_outcome event w) as (r & Ho & Hr);
  rewrite ?Hr; clear Hr;
  set (d := dynamo_calls (calls (snd (handle event w)))) in *;
  set (m := metric_calls (calls (snd (handle event w)))) in *;
  clearbody d m; destruct Ho; cbn [response_of].

(** X1. A request makes at most one call to the store and at most one
    call to the metrics sink. *)
Theorem at_most_one_call_each event w :
  (List.length (dynamo_calls (calls (snd (handle event w)))) <= 1)%nat /\
  (List.length (metric_calls (calls (snd (handle event w)))) <= 1)%nat.
Proof. by_outcome event w; cbn; lia. Qed.

(** X2. The status of a response is one of 200, 201, 204, 400, 404, 405
    and 500. *)
Theorem status_is_one_of_seven event w :
  exists resp,
    fst (handle event w) = inr resp /\
    In (statusCode resp) [200; 201; 204; 400; 404; 405; 500]%Z.
Proof.
  by_outcome event w; eexists; (split; [reflexivity |]); cbn; tauto.
Qed.

(** X3. The metrics sink is called only by a create request, after the
    store accepted the item, for the one counter [TodoCreatedCount]
    with value 1; and a response has status 201 only when that call
    was made. *)
Theorem metric_goes_with_created event w :
  (forall cmd mr,
      In (cmd, mr) (metric_calls (calls (snd (handle event w)))) ->
      httpMethod event = "POST" /\
      (exists tm, cmd = created_metric tm) /\
      exists item out,
        dynamo_calls (calls (snd (handle event w))) =
          [(PutCommand TABLE_NAME item, inr out)] /\
        fst (handle event w) = inr (createResponse 201 item)) /\
  (forall resp,
      fst (handle event w) = inr resp ->
      statusCode resp = 201%Z ->
      exists tm mr,
        metric_calls (calls (snd (handle event w))) =
          [(created_metric tm, mr)]).
Proof.
  by_outcome event w; (split; [intros cmd0 mr0 Hin | intros resp [= <-] Hs]);
    cbn in *; try contradiction; try discriminate.
  - destruct Hin as [[= <- <-] | []]. eauto 10.
  - eauto.
Qed.

(** X4. A request that is answered with 400 or 405 made no call to the
    store and none to the metrics sink. *)
Theorem rejections_make_no_call event w resp :
  fst (handle event w) = inr resp ->
  statusCode resp = 400%Z \/ statusCode resp = 405%Z ->
  dynamo_calls (calls (snd (handle event w))) = [] /\
  metric_calls (calls (snd (handle event w))) = [].
Proof.
  by_outcome event w; intros [= <-] [Hs | Hs]; cbn in Hs;
    try discriminate; split; reflexivity.
Qed.

(** X5. A 404 always comes from the store: the request made one call,
    and either it was a read that returned no item, or an update that
    the store refused with [ValidationException], or a deletion that
    it refused with [ConditionalCheckFailedException]. *)
Theorem not_found_comes_from_the_store event w resp :
  fst (handle event w) = inr resp ->
  statusCode resp = 404%Z ->
  exists cmd reply,
    dynamo_calls (calls (snd (handle event w))) = [(cmd, reply)] /\
    ((httpMethod event = "GET" /\
      cmd = GetCommand TABLE_NAME (key_of (path_id event)) /\
      exists out, reply = inr out /\ truthy (Item out) = false) \/
     (httpMethod event = "PUT" /\
      exists e, reply = inl e /\ name e = "ValidationException") \/
     (httpMethod event = "DELETE" /\
      exists e, reply = inl e /\
                name e = "ConditionalCheckFailedException")).
Proof.
  by_outcome event w; intros [= <-] Hs; cbn in Hs; try discriminate;
    do 2 eexists; (split; [reflexivity |]).
  - left. eauto.
  - right; left. split; [assumption |]. eexists. split; [reflexivity |].
    apply String.eqb_eq. assumption.
  - right; right. split; [assumption |]. eexists. split; [reflexivity |].
    apply String.eqb_eq. assumption.
Qed.

(** X6. Each method sends the store its own kind of command, on the
    configured table: POST only writes an item, GET only reads (one item
    under the identifier of the path, or the whole table), PUT only
    updates and DELETE only deletes the item under the identifier of
    the path. *)
Theorem commands_follow_the_method event w cmd reply :
  In (cmd, reply) (dynamo_calls (calls (snd (handle event w)))) ->
  match cmd with
  | PutCommand table _ =>
      httpMethod event = "POST" /\ table = TABLE_NAME
  | GetCommand table k =>
      httpMethod event = "GET" /\ table = TABLE_NAME /\
      k = key_of (path_id event)
  | ScanCommand table =>
      httpMethod event = "GET" /\ table = TABLE_NAME
  | UpdateCommand table k _ _ _ returned =>
      httpMethod event = "PUT" /\ table = TABLE_NAME /\
      k = key_of (path_id event) /\ returned = "ALL_NEW"
  | DeleteCommand table k condition =>
      httpMethod event = "DELETE" /\ table = TABLE_NAME /\
      k = key_of (path_id event) /\ condition = "attribute_exists(todoId)"
  end.
Proof.
  by_outcome event w; intros Hin; cbn in Hin; try contradiction;
    destruct Hin as [[= <- <-] | []]; cbn; auto.
Qed.


Lemma JSON_stringify_none v : JSON_stringify v = None -> v = JUndefined.
Proof. destruct v; simpl; intros H; try discriminate; reflexivity. Qed.

(** X8. The body of a response is [undefined] only on an update that
    the store accepted without returning the attributes of the item;
    the status is then 200. *)
Theorem body_is_undefined_only_on_update event w resp :
  fst (handle event w) = inr resp ->
  resultBody resp = None ->
  httpMethod event = "PUT" /\
  statusCode resp = 200%Z /\
  exists cmd out,
    dynamo_calls (calls (snd (handle event w))) = [(cmd, inr out)] /\
    Attributes out = JUndefined.
Proof.
  by_outcome event w; intros [= <-] Hb; cbn in Hb; try discriminate.
  - apply JSON_stringify_none in Hb. rewrite Hb in *. discriminate.
  - apply JSON_stringify_none in Hb.
    split; [assumption |]. split; [reflexivity |]. eauto.
Qed.

(** X9. A 500 has one of two causes, and the metrics sink is never one:
    either the body of a create or update request could not be used
    ([JSON.parse] threw, or the parsed body has no properties to read),
    and then nothing was called, or the one call to the store failed
    with an error that the handler does not recognise. *)
Theorem internal_error_has_two_causes event w resp :
  fst (handle event w) = inr resp ->
  statusCode resp = 500%Z ->
  ((httpMethod event = "POST" \/ httpMethod event = "PUT") /\
   ((exists e, JSON_parse (body_text event) = inl e) \/
    (exists b e, JSON_parse (body_text event) = inr b /\
                 get_prop b "title" = inl e)) /\
   dynamo_calls (calls (snd (handle event w))) = [] /\
   metric_calls (calls (snd (handle event w))) = []) \/
  (exists cmd e,
     dynamo_calls (calls (snd (handle event w))) = [(cmd, inl e)] /\
     recognised cmd e = false /\
     metric_calls (calls (snd (handle event w))) = []).
Proof.
  by_outcome event w; intros [= <-] Hs; cbn in Hs; try discriminate;
    try (left; split; [assumption |]; split; [| split; reflexivity];
         eauto; fail);
    right; do 2 eexists; (split; [reflexivity |]);
    (split; [| reflexivity]); cbn; auto.
Qed.

(** X10. A create or update request whose body is the JSON text [null]
    is answered with the 500, and nothing is called: reading [title]
    of [null] throws. *)
Theorem null_body_is_an_internal_error event w :
  httpMethod event = "POST" \/ httpMethod event = "PUT" ->
  JSON_parse (body_text event) = inr JNull ->
  fst (handle event w) = inr internal_error /\
  dynamo_calls (calls (snd (handle event w))) = [] /\
  metric_calls (calls (snd (handle event w))) = [].
Proof.
  by_outcome event w; intros Hm Hb;
    try (destruct Hm as [Hm | Hm]; congruence);
    try (rewrite Hb in *;
         repeat match goal with
                | H : inr _ = inr _ |- _ => injection H as <-
                end;
         discriminate);
    auto.
Qed.

(** X11. A request without a body, or with the empty text for a body,
    is handled as if its body were the empty object: a create is
    refused for want of a title and an update for want of a field,
    each with a 400 and without a call to the store. *)
Theorem missing_body_is_the_empty_object event w :
  body event = None \/ body event = Some EmptyString ->
  JSON_parse "{}" = inr (JObj []) ->
  (httpMethod event = "POST" ->
     fst (handle event w) =
       inr (createResponse 400 (error_body "Title is required")) /\
     dynamo_calls (calls (snd (handle event w))) = []) /\
  (httpMethod event = "PUT" ->
     fst (handle event w) =
       inr (createResponse 400 (error_body "No valid fields to update")) /\
     dynamo_calls (calls (snd (handle event w))) = []).
Proof.
  intros Hbody Hparse.
  assert (Htext : body_text event = "{}").
  { unfold body_text. destruct Hbody as [-> | ->]; reflexivity. }
  rewrite <- Htext in Hparse.
  split; intros Hm.
  - pose proof (createTodo_invalid event (entered event (mkSt w []))
                  (t := JUndefined) Hparse eq_refl eq_refl) as Hrun.
    rewrite <- (route_POST event Hm) in Hrun.
    destruct (handle_of_route event w Hrun) as (Hresp & Hd & _).
    rewrite Hresp, Hd. split; reflexivity.
  - pose proof (updateTodo_invalid (path_id event) event
                  (entered event (mkSt w []))
                  (vt := JUndefined) (vd := JUndefined) (vc := JUndefined)
                  Hparse eq_refl eq_refl eq_refl eq_refl) as Hrun.
    rewrite <- (route_PUT event Hm) in Hrun.
    destruct (handle_of_route event w Hrun) as (Hresp & Hd & _).
    rewrite Hresp, Hd. split; reflexivity.
Qed.

(** X12. A GET whose identifier is the empty text is a list request:
    its one call to the store is the scan of the table. *)
Theorem empty_identifier_lists event w params :
  httpMethod event = "GET" ->
  pathParameters event = Some params ->
  assoc "id" params = Some EmptyString ->
  exists reply,
    dynamo_calls (calls (snd (handle event w))) =
      [(ScanCommand TABLE_NAME, reply)].
Proof.
  intros Hm Hp Hid.
  assert (Hfalsy : truthy (path_id event) = false).
  { unfold path_id. rewrite Hp, Hid. reflexivity. }
  revert Hm Hfalsy. clear Hp Hid.
  by_outcome event w; intros Hm Hfalsy; try congruence; eauto;
    match goal with
    | H : _ \/ _ |- _ => destruct H; congruence
    end.
Qed.

(** X13. Only create and update read the body of the request: for any
    other method the run is the same whatever the body is, a text that
    is not JSON included. *)
Theorem body_is_read_only_by_create_and_update event w b :
  httpMethod event <> "POST" ->
  httpMethod event <> "PUT" ->
  handle (with_body b event) w = handle event w.
Proof.
  intros Hpost Hput.
  unfold handle, main, route, with_body, path_id.
  cbn [httpMethod path body pathParameters].
  destruct (String.eqb_spec (httpMethod event) "POST"); [contradiction |].
  destruct (String.eqb_spec (httpMethod event) "PUT"); [contradiction |].
  reflexivity.
Qed.

Lemma route_with_path p event : route (with_path p event) = route event.
Proof. reflexivity. Qed.

(** The run of [main] from an empty trace, in terms of the run of
    [route] from an empty trace. *)
Lemma handle_framed event w :
  let w1 := snd (Date_now w) in
  let line := request_line (fst (Date_now w)) event in
  let r := route event (mkSt w1 []) in
  handle event w =
  match fst r with
  | inr resp =>
      (inr resp, mkSt (world (snd r)) (ConsoleLog line :: calls (snd r)))
  | inl e =>
      (inr internal_error,
       mkSt (snd (Date_now (world (snd r))))
         (ConsoleLog line :: calls (snd r)
          ++ [ConsoleLog (failure_line (fst (Date_now (world (snd r)))) e)]))
  end.
Proof.
  cbv zeta. rewrite handle_run. unfold entered. cbn [world calls app].
  rewrite (framed_route event (snd (Date_now w)) _).
  destruct (route event (mkSt (snd (Date_now w)) [])) as [[e | resp] [w' c]];
    reflexivity.
Qed.

(** X14. The path of the request is written to the console and used for
    nothing else: with another path the response, the calls to the
    store, the calls to the sink and the world that is left are the
    same. *)
Theorem path_is_only_logged event w p :
  fst (handle (with_path p event) w) = fst (handle event w) /\
  dynamo_calls (calls (snd (handle (with_path p event) w))) =
    dynamo_calls (calls (snd (handle event w))) /\
  metric_calls (calls (snd (handle (with_path p event) w))) =
    metric_calls (calls (snd (handle event w))) /\
  world (snd (handle (with_path p event) w)) = world (snd (handle event w)).
Proof.
  rewrite (handle_framed (with_path p event) w), (handle_framed event w).
  cbv zeta. rewrite route_with_path.
  destruct (route event (mkSt (snd (Date_now w)) [])) as [[e | resp] [w' c]];
    cbn [fst snd world calls dynamo_calls metric_calls];
    rewrite ?dynamo_calls_app, ?metric_calls_app; repeat split.
Qed.

(** X15. Every request is logged before it is handled: the first entry
    of its trace is the console line of the request, with its method,
    its path and its identifier. *)
Theorem request_is_logged_first event w :
  exists rest,
    calls (snd (handle event w)) =
    ConsoleLog (request_line (fst (Date_now w)) event) :: rest.
Proof.
  rewrite (handle_framed event w). cbv zeta.
  destruct (route event (mkSt (snd (Date_now w)) [])) as [[e | resp] [w' c]];
    cbn [fst snd calls]; eauto.
Qed.


(** X17. [putMetric] never throws and never calls the store; it calls
    the sink once, in the namespace [TodoApp], with one datum that has
    the name and the value it was given, the unit [Count] and the
    reading of the clock; it writes a line to the console exactly when
    the sink failed, with the message of the failure. *)
Theorem putMetric_calls_the_sink_once metricName value s t w1 r w2 :
  Date_now (world s) = (t, w1) ->
  let cmd := {| Namespace := "TodoApp";
                MetricData := [ {| MetricName := metricName;
                                   Value := value;
                                   Unit := "Count";
                                   Timestamp := t |} ] |} in
  cloudWatch_send cmd w1 = (r, w2) ->
  let s' := snd (putMetric metricName value s) in
  fst (putMetric metricName value s) = inr tt /\
  dynamo_calls (calls s') = dynamo_calls (calls s) /\
  metric_calls (calls s') = (metric_calls (calls s) ++ [(cmd, r)])%list /\
  console_lines (calls s') =
    (console_lines (calls s)
     ++ match r with
        | inl e =>
            [log_line (fst (Date_now w2)) "error" "Failed to put metric"
               (JObj [("error", JStr (message e))])]
        | inr _ => []
        end)%list.
Proof.
  intros Ht cmd Hs s'. subst s'. rewrite putMetric_run, Ht.
  cbv beta iota zeta. fold cmd. rewrite Hs.
  destruct r as [e | u]; cbn [fst snd calls world];
    rewrite dynamo_calls_app, metric_calls_app, console_lines_app; cbn;
    rewrite ?app_nil_r; repeat split.
Qed.

(** X18. The update request is well formed for the store: the value
    placeholders of its expression are exactly the keys of
    [ExpressionAttributeValues], without repetition, its name
    placeholders are exactly the keys of [ExpressionAttributeNames],
    and [ExpressionAttributeNames] is left out, never sent empty, when
    the title is not updated. *)
Theorem update_request_binds_what_it_uses id vt vd vc t :
  exists expr values names,
    update_command id (update_parts vt vd vc) t =
      UpdateCommand TABLE_NAME (key_of id) expr (JObj values) names
        "ALL_NEW" /\
    Expression.value_refs expr = map fst values /\
    NoDup (map fst values) /\
    Expression.name_refs expr = map fst (Store.props_of names) /\
    (names = JUndefined <-> vt = JUndefined) /\
    names <> JObj [].
Proof.
  unfold update_command, update_parts.
  destruct (defined vt) eqn:Ht, (defined vd), (defined vc);
    do 3 eexists; (split; [reflexivity |]);
    (split; [reflexivity |]);
    (split; [repeat constructor; cbn; intuition discriminate |]);
    (split; [reflexivity |]);
    cbn; (split; [| discriminate]);
    (split; [intros H; try discriminate | intros ->; try discriminate]);
    try reflexivity;
    destruct vt; try discriminate; reflexivity.
Qed.

Lemma createTodo_reads_two_fields event event' s b b' :
  JSON_parse (body_text event) = inr b ->
  JSON_parse (body_text event') = inr b' ->
  get_prop b' "title" = get_prop b "title" ->
  get_prop b' "description" = get_prop b "description" ->
  createTodo event' s = createTodo event s.
Proof.
  intros Hb Hb' Ht Hd.
  unfold createTodo, bind, parse, prop, lift. rewrite Hb, Hb', Ht, Hd.
  reflexivity.
Qed.

Lemma updateTodo_reads_three_fields id event event' s b b' :
  JSON_parse (body_text event) = inr b ->
  JSON_parse (body_text event') = inr b' ->
  get_prop b' "title" = get_prop b "title" ->
  get_prop b' "description" = get_prop b "description" ->
  get_prop b' "completed" = get_prop b "completed" ->
  updateTodo id event' s = updateTodo id event s.
Proof.
  intros Hb Hb' Ht Hd Hc.
  unfold updateTodo, bind, parse, prop, lift. rewrite Hb, Hb', Ht, Hd, Hc.
  reflexivity.
Qed.

(** X19. A create request uses nothing of its body but the title and
    the description: with another body that has the same two, whatever
    else it holds (an identifier, [completed], timestamps), the run is
    the same. *)
Theorem create_reads_title_and_description event w text b b' :
  httpMethod event = "POST" ->
  JSON_parse (body_text event) = inr b ->
  JSON_parse (body_text (with_body text event)) = inr b' ->
  get_prop b' "title" = get_prop b "title" ->
  get_prop b' "description" = get_prop b "description" ->
  handle (with_body text event) w = handle event w.
Proof.
  intros Hm Hb Hb' Ht Hd.
  unfold handle, main.
  change (path_id (with_body text event)) with (path_id event).
  change (httpMethod (with_body text event)) with (httpMethod event).
  change (path (with_body text event)) with (path event).
  rewrite (route_POST event Hm), (route_POST (with_body text event) Hm).
  unfold bind, try_catch.
  destruct (log "info" "Request received" _ _) as [[e | []] s1];
    [reflexivity |].
  rewrite (createTodo_reads_two_fields event (with_body text event) s1
             Hb Hb' Ht Hd).
  reflexivity.
Qed.

(** X20. An update request uses nothing of its body but the title, the
    description and [completed]: with another body that has the same
    three, whatever else it holds, the run is the same. *)
Theorem update_reads_three_fields event w text b b' :
  httpMethod event = "PUT" ->
  JSON_parse (body_text event) = inr b ->
  JSON_parse (body_text (with_body text event)) = inr b' ->
  get_prop b' "title" = get_prop b "title" ->
  get_prop b' "description" = get_prop b "description" ->
  get_prop b' "completed" = get_prop b "completed" ->
  handle (with_body text event) w = handle event w.
Proof.
  intros Hm Hb Hb' Ht Hd Hc.
  unfold handle, main.
  change (path_id (with_body text event)) with (path_id event).
  change (httpMethod (with_body text event)) with (httpMethod event).
  change (path (with_body text event)) with (path event).
  rewrite (route_PUT event Hm), (route_PUT (with_body text event) Hm).
  change (path_id (with_body text event)) with (path_id event).
  unfold bind, try_catch.
  destruct (log "info" "Request received" _ _) as [[e | []] s1];
    [reflexivity |].
  rewrite (updateTodo_reads_three_fields (path_id event) event
             (with_body text event) s1 Hb Hb' Ht Hd Hc).
  reflexivity.
Qed.

(** X21. A GET with a truthy identifier makes one call to the store, a
    read of the item under that identifier; a reply with a truthy
    [Item] is answered with status 200 and that item for a body, a
    reply without one with the 404 and the body
    [{error: Todo not found}], and a failed read with the 500. *)
Theorem read_returns_the_item_or_404 event w ts w1 r w2 :
  httpMethod event = "GET" ->
  truthy (path_id event) = true ->
  Date_now w = (ts, w1) ->
  let cmd := GetCommand TABLE_NAME (key_of (path_id event)) in
  dynamoDb_send cmd w1 = (r, w2) ->
  dynamo_calls (calls (snd (handle event w))) = [(cmd, r)] /\
  metric_calls (calls (snd (handle event w))) = [] /\
  fst (handle event w) =
    inr (match r with
         | inr out =>
             if truthy (Item out) then createResponse 200 (Item out)
             else not_found
         | inl _ => internal_error
         end) /\
  (forall out, r = inr out ->
     resultBody (createResponse 200 (Item out)) = JSON_stringify (Item out))
  /\ resultBody not_found = Some (error_text "Todo not found").
Proof.
  intros Hm Hid Hts cmd Hsend.
  set (s1 := mkSt w1 [ConsoleLog (log_line ts "info" "Request received"
                        (JObj [("method", JStr (httpMethod event));
                               ("path", JStr (path event));
                               ("todoId", path_id event)]))]).
  pose proof (getTodo_run (path_id event) s1 Hsend) as Hrun.
  cbv zeta in Hrun. rewrite <- (route_GET_item event Hm Hid) in Hrun.
  fold (key_of (path_id event)) in Hrun. fold cmd in Hrun.
  destruct r as [e | out]; [| destruct (truthy (Item out)) eqn:Hitem];
    destruct (handle_at event w Hts Hrun) as (Hresp & Hd & Hmc);
    rewrite Hresp, Hd, Hmc; cbn [calls];
    rewrite ?dynamo_calls_app, ?metric_calls_app;
    repeat split; reflexivity.
Qed.

(** X22. A method other than POST, GET, PUT and DELETE is answered with
    status 405 and the body [{error: Method not allowed}]; nothing is
    called, and nothing of the request is read but its method. *)
Theorem unknown_method_is_not_allowed event w :
  httpMethod event <> "POST" ->
  httpMethod event <> "GET" ->
  httpMethod event <> "PUT" ->
  httpMethod event <> "DELETE" ->
  fst (handle event w) =
    inr (createResponse 405 (error_body "Method not allowed")) /\
  resultBody (createResponse 405 (error_body "Method not allowed")) =
    Some (error_text "Method not allowed") /\
  dynamo_calls (calls (snd (handle event w))) = [] /\
  metric_calls (calls (snd (handle event w))) = [].
Proof.
  intros H1 H2 H3 H4.
  pose proof (route_other event (entered event (mkSt w []))
                (proj2 (String.eqb_neq _ _) H1)
                (proj2 (String.eqb_neq _ _) H2)
                (proj2 (String.eqb_neq _ _) H3)
                (proj2 (String.eqb_neq _ _) H4)) as Hrun.
  destruct (handle_of_route event w Hrun) as (Hresp & Hd & Hmc).
  rewrite Hresp, Hd, Hmc. repeat split; reflexivity.
Qed.

(** X23. A success is never reported unless the store accepted the one
    call of the request, and a call that the store refused is never
    reported as a success: with status 200, 201 or 204 the trace holds
    one call to the store and its reply is not an error; after a failed
    call the status is 404 or 500. *)
Theorem success_means_the_store_accepted event w resp :
  fst (handle event w) = inr resp ->
  (statusCode resp = 200%Z \/ statusCode resp = 201%Z \/
   statusCode resp = 204%Z ->
   exists cmd out,
     dynamo_calls (calls (snd (handle event w))) = [(cmd, inr out)]) /\
  (forall cmd e,
     In (cmd, inl e) (dynamo_calls (calls (snd (handle event w)))) ->
     statusCode resp = 404%Z \/ statusCode resp = 500%Z).
Proof.
  by_outcome event w; intros [= <-]; split;
    try (intros [Hs | [Hs | Hs]]; cbn in Hs; try discriminate; eauto; fail);
    intros cmd0 e0 Hin; cbn in Hin; try contradiction;
    destruct Hin as [[=] | []]; cbn; auto.
Qed.

End Invariants.

(* ===================================================================== *)
(** ** The properties of every request, on the examples *)
(* ===================================================================== *)

Section OnMoreExamples.
Import Mock Examples MoreExamples.

Lemma rejections_make_no_call_example :
  dynamo_calls (calls (snd (handle create_event_no_title world_ok))) = [] /\
  metric_calls (calls (snd (handle create_event_no_title world_ok))) = [].
Proof.
  apply (@rejections_make_no_call World runtime create_event_no_title
           world_ok
           (createResponse 400 (error_body "Title is required"))
           eq_refl (or_introl eq_refl)).
Defined.

Lemma not_found_comes_from_the_store_example :
  exists cmd reply,
    dynamo_calls (calls (snd (handle delete_event world_missing))) =
      [(cmd, reply)] /\
    ((httpMethod delete_event = "GET" /\
      cmd = GetCommand "test-todos-table" (key_of (path_id delete_event)) /\
      exists out, reply = inr out /\ truthy (Item out) = false) \/
     (httpMethod delete_event = "PUT" /\
      exists e, reply = inl e /\ name e = "ValidationException") \/
     (httpMethod delete_event = "DELETE" /\
      exists e, reply = inl e /\
                name e = "ConditionalCheckFailedException")).
Proof.
  apply (@not_found_comes_from_the_store World runtime delete_event
           world_missing not_found eq_refl eq_refl).
Defined.

Lemma commands_follow_the_method_example :
  httpMethod create_event = "POST" /\ "test-todos-table" = "test-todos-table".
Proof.
  apply (@commands_follow_the_method World runtime create_event world_ok
           (PutCommand "test-todos-table" created_item) (inr empty_output)
           (or_introl eq_refl)).
Defined.


Lemma body_is_undefined_only_on_update_example :
  httpMethod update_event_no_id = "PUT" /\
  statusCode (createResponse 200 JUndefined) = 200%Z /\
  exists cmd out,
    dynamo_calls (calls (snd (handle update_event_no_id world_ok))) =
      [(cmd, inr out)] /\
    Attributes out = JUndefined.
Proof.
  apply (@body_is_undefined_only_on_update World runtime update_event_no_id
           world_ok (createResponse 200 JUndefined) eq_refl eq_refl).
Defined.

Lemma internal_error_has_two_causes_example :
  exists cmd e,
    dynamo_calls (calls (snd (handle list_event world_broken))) =
      [(cmd, inl e)] /\
    recognised cmd e = false.
Proof.
  destruct (@internal_error_has_two_causes World runtime list_event
              world_broken internal_error eq_refl eq_refl)
    as [([H | H] & _) | (cmd & e & Hcalls & Hrec & _)];
    [discriminate H | discriminate H |].
  exists cmd, e. split; assumption.
Defined.

Lemma null_body_is_an_internal_error_example :
  fst (handle create_event_null world_ok) = inr internal_error /\
  dynamo_calls (calls (snd (handle create_event_null world_ok))) = [] /\
  metric_calls (calls (snd (handle create_event_null world_ok))) = [].
Proof.
  apply (@null_body_is_an_internal_error World runtime create_event_null
           world_ok (or_introl eq_refl) eq_refl).
Defined.

Lemma missing_body_is_the_empty_object_example :
  fst (handle create_event_no_body world_ok) =
    inr (createResponse 400 (error_body "Title is required")) /\
  dynamo_calls (calls (snd (handle create_event_no_body world_ok))) = [].
Proof.
  apply (@missing_body_is_the_empty_object World runtime
           create_event_no_body world_ok (or_introl eq_refl) eq_refl).
  reflexivity.
Defined.

Lemma empty_identifier_lists_example :
  exists reply,
    dynamo_calls (calls (snd (handle get_event_empty_id world_two_todos))) =
      [(ScanCommand "test-todos-table", reply)].
Proof.
  apply (@empty_identifier_lists World runtime get_event_empty_id
           world_two_todos [("id", EmptyString)] eq_refl eq_refl eq_refl).
Defined.

(** A DELETE with a body that is not JSON is the DELETE without it. *)
Lemma body_is_read_only_by_create_and_update_example :
  handle (with_body (Some "{ invalid json }") delete_event) world_ok =
  handle delete_event world_ok.
Proof.
  apply (@body_is_read_only_by_create_and_update World runtime delete_event
           world_ok (Some "{ invalid json }")); discriminate.
Defined.


Lemma putMetric_calls_the_sink_once_example :
  fst (putMetric "TodoCreatedCount" 1 (mkSt world_sink_down [])) = inr tt /\
  metric_calls
    (calls (snd (putMetric "TodoCreatedCount" 1 (mkSt world_sink_down []))))
  = [(created_metric "2024-01-01T00:00:00.000Z", inl sink_error)] /\
  console_lines
    (calls (snd (putMetric "TodoCreatedCount" 1 (mkSt world_sink_down []))))
  = [log_line "2024-01-01T00:00:00.001Z" "error" "Failed to put metric"
       (JObj [("error", JStr "metrics sink is down")])].
Proof.
  destruct (@putMetric_calls_the_sink_once World runtime
              "TodoCreatedCount" 1%Z (mkSt world_sink_down [])
              "2024-01-01T00:00:00.000Z"
              (mkWorld (resolved empty_output) (inl sink_error) 1 1 0)
              (inl sink_error)
              (mkWorld (resolved empty_output) (inl sink_error) 1 1 0)
              eq_refl eq_refl)
    as (Hret & _ & Hmetric & Hlines).
  split; [exact Hret |]. split; [exact Hmetric | exact Hlines].
Defined.

(** A create request that also gives an identifier and [completed] is
    handled as the one that gives the title only. *)
Lemma create_reads_title_and_description_example :
  handle (with_body crowded_create_body create_event) world_ok =
  handle create_event world_ok.
Proof.
  apply (@create_reads_title_and_description World runtime create_event
           world_ok crowded_create_body
           (JObj [("title", JStr "Test Todo")])
           (JObj [("todoId", JStr "mine"); ("title", JStr "Test Todo");
                  ("completed", JBool true)]));
    reflexivity.
Defined.

Lemma update_reads_three_fields_example :
  handle (with_body crowded_update_body update_event) world_updated =
  handle update_event world_updated.
Proof.
  apply (@update_reads_three_fields World runtime update_event
           world_updated crowded_update_body
           (JObj [("title", JStr EmptyString); ("completed", JBool false)])
           (JObj [("todoId", JStr "other"); ("title", JStr EmptyString);
                  ("createdAt", JStr "1999-01-01T00:00:00.000Z");
                  ("completed", JBool false)]));
    reflexivity.
Defined.

Lemma read_returns_the_item_or_404_example :
  dynamo_calls (calls (snd (handle get_event world_found))) =
    [(GetCommand "test-todos-table" (JObj [("todoId", JStr "123")]),
      dynamo_reply world_found)] /\
  fst (handle get_event world_found) =
    inr (createResponse 200 (JObj old_item)).
Proof.
  destruct (@read_returns_the_item_or_404 World runtime get_event
              world_found
              "2024-01-01T00:00:00.000Z"
              (mkWorld (dynamo_reply world_found) (inr tt) 1 1 0)
              (dynamo_reply world_found)
              (mkWorld (dynamo_reply world_found) (inr tt) 1 1 0)
              eq_refl eq_refl eq_refl eq_refl)
    as (Hcalls & _ & Hresp & _).
  split; [exact Hcalls | exact Hresp].
Defined.

Lemma unknown_method_is_not_allowed_example :
  fst (handle patch_event world_ok) =
    inr (createResponse 405 (error_body "Method not allowed")) /\
  dynamo_calls (calls (snd (handle patch_event world_ok))) = [].
Proof.
  destruct (@unknown_method_is_not_allowed World runtime patch_event
              world_ok)
    as (Hresp & _ & Hcalls & _); try discriminate.
  split; [exact Hresp | exact Hcalls].
Defined.

Lemma success_means_the_store_accepted_example :
  exists cmd out,
    dynamo_calls (calls (snd (handle delete_event world_ok))) =
      [(cmd, inr out)].
Proof.
  destruct (@success_means_the_store_accepted World runtime delete_event
              world_ok (createResponse 204 (JObj [])) eq_refl)
    as (Hok & _).
  apply Hok. right; right. reflexivity.
Defined.

(** The create request of the test file: its one metric goes with the
    201 and with the write that the store accepted. *)
Lemma metric_goes_with_created_example :
  httpMethod create_event = "POST" /\
  (exists tm, created_metric "2024-01-01T00:00:00.003Z" = created_metric tm)
  /\ exists item out,
       dynamo_calls (calls (snd (handle create_event world_ok))) =
         [(PutCommand "test-todos-table" item, inr out)] /\
       fst (handle create_event world_ok) = inr (createResponse 201 item).
Proof.
  destruct (@metric_goes_with_created World runtime create_event world_ok)
    as (Honly & _).
  apply (Honly (created_metric "2024-01-01T00:00:00.003Z") (inr tt)).
  left. reflexivity.
Defined.

End OnMoreExamples.
